(** * UPC product lookup service (upc-product-lookup/app.py)

    A shallow embedding of the request handlers, the background job and the
    image pipeline of [app.py], and the properties of its specification.

    Conventions of the model.
    - Python [str] and [bytes] values are Rocq [string]s. Which characters
      count as digits or as white space is not fixed here: [str.isdigit],
      [str.strip] and [int] are functions of the world.
    - Values decoded from JSON ([response.json()], [json.loads]) and the
      dictionaries handed to [jsonify] / [json.dumps] are terms of [json].
    - Redis is a finite map from keys to (payload, ttl in days); the file
      system is a finite map from paths to file contents and a set of
      created directories; [processing_upcs] is a finite set of strings.
    - Library calls whose result depends on the outside world (HTTP requests,
      PIL, the Gemini client, [urlparse], [urljoin], the JSON codec, the
      operating system) are the fields of a [World] record: every theorem
      holds for every world.
    - [pd.read_csv] hands over a typed column; [astype(str)] is applied to it
      as the handler does.
    - Code in a [try] block is a computation in a state-and-exception monad;
      the state reached before a [raise] is kept. *)

From Stdlib Require Import ZArith Ascii String List DecimalString DecimalNat DecimalPos.
From stdpp Require Import base option list gmap sets strings.

Set Warnings "-register-all".
Local Open Scope string_scope.
Local Open Scope Z_scope.

(** ** Python strings *)

Module PyStr.

Definition is_ascii_digit (c : ascii) : bool :=
  let n := nat_of_ascii c in (48 <=? n)%nat && (n <=? 57)%nat.

Fixpoint all_chars (p : ascii → bool) (s : string) : bool :=
  match s with
  | EmptyString => true
  | String c r => p c && all_chars p r
  end.

Definition digit_value (c : ascii) : Z := Z.of_nat (nat_of_ascii c) - 48.

Fixpoint startswith (p s : string) : bool :=
  match p, s with
  | EmptyString, _ => true
  | String a p', String b s' => Ascii.eqb a b && startswith p' s'
  | String _ _, EmptyString => false
  end.

Fixpoint rev_string (acc s : string) : string :=
  match s with
  | EmptyString => acc
  | String c r => rev_string (String c acc) r
  end.

(** [s.endswith(p)] *)
Definition endswith (p s : string) : bool :=
  startswith (rev_string "" p) (rev_string "" s).

(** [s.replace('\\', '/')] *)
Fixpoint replace_backslash (s : string) : string :=
  match s with
  | EmptyString => EmptyString
  | String c r =>
      String (if Ascii.eqb c "\" then "/"%char else c) (replace_backslash r)
  end.

(** [sub in s] for strings *)
Definition contains (sub s : string) : bool :=
  match String.index 0 sub s with Some _ => true | None => false end.

(** [str(n)] for a natural number *)
Definition of_nat (n : nat) : string := NilEmpty.string_of_uint (Nat.to_uint n).

(** [str(n)] for an integer *)
Definition of_Z (n : Z) : string := NilEmpty.string_of_int (Z.to_int n).

(** the one-character string holding a double quote *)
Definition dquote : string := String (ascii_of_nat 34) EmptyString.

(** truth value of a string: non-empty *)
Definition truthy (s : string) : bool :=
  match s with EmptyString => false | _ => true end.

End PyStr.

(** ** JSON values and the Python operations the code applies to them *)

Inductive json : Type :=
  | JNull
  | JBool (b : bool)
  | JNum (n : Z)
  | JStr (s : string)
  | JArr (l : list json)
  | JObj (kvs : list (string * json)).

Inductive exn : Type :=
  | TypeError
  | KeyError
  | AttributeError
  | ResponseError
  | OSError
  | OtherException (msg : string).

Inductive result (A : Type) : Type :=
  | Ret (a : A)
  | Raise (e : exn).
Arguments Ret {A} a.
Arguments Raise {A} e.

Module Py.

(** [bool(v)] *)
Definition truthy (v : json) : bool :=
  match v with
  | JNull => false
  | JBool b => b
  | JNum n => negb (n =? 0)
  | JStr s => PyStr.truthy s
  | JArr l => match l with [] => false | _ => true end
  | JObj kvs => match kvs with [] => false | _ => true end
  end.

(** lookup in a decoded dictionary *)
Fixpoint dict_lookup (k : string) (kvs : list (string * json)) : option json :=
  match kvs with
  | [] => None
  | (k', v) :: r => if String.eqb k k' then Some v else dict_lookup k r
  end.

(** [d[k] = v] *)
Fixpoint dict_set (k : string) (v : json) (kvs : list (string * json))
  : list (string * json) :=
  match kvs with
  | [] => [(k, v)]
  | (k', v') :: r =>
      if String.eqb k k' then (k, v) :: r else (k', v') :: dict_set k v r
  end.

Definition is_str (s : string) (v : json) : bool :=
  match v with JStr s' => String.eqb s s' | _ => false end.

(** [k in v] *)
Definition contains (k : string) (v : json) : result bool :=
  match v with
  | JObj kvs => Ret (bool_decide (is_Some (dict_lookup k kvs)))
  | JArr l => Ret (existsb (is_str k) l)
  | JStr s => Ret (PyStr.contains k s)
  | JNull | JBool _ | JNum _ => Raise TypeError
  end.

(** [v[k]] for a string [k] *)
Definition getitem (k : string) (v : json) : result json :=
  match v with
  | JObj kvs =>
      match dict_lookup k kvs with Some x => Ret x | None => Raise KeyError end
  | _ => Raise TypeError
  end.

Definition first_char (s : string) : option string :=
  match s with String c _ => Some (String c "") | EmptyString => None end.

(** [v[0]] *)
Definition index0 (v : json) : result json :=
  match v with
  | JArr (x :: _) => Ret x
  | JArr [] => Raise (OtherException "IndexError")
  | JStr s =>
      match first_char s with
      | Some c => Ret (JStr c)
      | None => Raise (OtherException "IndexError")
      end
  | JObj _ => Raise KeyError
  | JNull | JBool _ | JNum _ => Raise TypeError
  end.

(** [v.get(k, dflt)] *)
Definition get (k : string) (dflt : json) (v : json) : result json :=
  match v with
  | JObj kvs => Ret (default dflt (dict_lookup k kvs))
  | _ => Raise AttributeError
  end.

Fixpoint chars (s : string) : list json :=
  match s with
  | EmptyString => []
  | String c r => JStr (String c "") :: chars r
  end.

(** the elements [for x in v] visits; [None] when [v] is not iterable *)
Definition iter (v : json) : option (list json) :=
  match v with
  | JArr l => Some l
  | JStr s => Some (chars s)
  | JObj kvs => Some (map (λ kv, JStr kv.1) kvs)
  | JNull | JBool _ | JNum _ => None
  end.

(** [data and 'items' in data and data['items']], as a truth value *)
Definition has_items (data : json) : result bool :=
  if truthy data then
    match contains "items" data with
    | Raise e => Raise e
    | Ret false => Ret false
    | Ret true =>
        match getitem "items" data with
        | Raise e => Raise e
        | Ret items => Ret (truthy items)
        end
    end
  else Ret false.

End Py.

(** ** The state of the process and of its collaborators *)

(** One external network request. *)
Inductive call : Type :=
  | CallLookup (upc : string)
  | CallDownload (position : nat) (url : json)
  | CallGemini (images : list string).

Record state : Type := mkState {
  redis : gmap string (string * Z);   (* key ↦ (payload, ttl in days) *)
  files : gmap string string;         (* path ↦ content *)
  dirs : gset string;                 (* the directories created *)
  processing_upcs : gset string;      (* the module-level set *)
  threads : list string;              (* started background jobs, oldest first *)
  calls : list call;                  (* network requests made, oldest first *)
}.

Definition set_redis (f : gmap string (string * Z) → gmap string (string * Z))
    (st : state) : state :=
  mkState (f (redis st)) (files st) (dirs st) (processing_upcs st) (threads st)
          (calls st).
Definition set_files (f : gmap string string → gmap string string)
    (st : state) : state :=
  mkState (redis st) (f (files st)) (dirs st) (processing_upcs st) (threads st)
          (calls st).
Definition set_dirs (f : gset string → gset string) (st : state) : state :=
  mkState (redis st) (files st) (f (dirs st)) (processing_upcs st) (threads st)
          (calls st).
Definition set_processing (f : gset string → gset string) (st : state) : state :=
  mkState (redis st) (files st) (dirs st) (f (processing_upcs st)) (threads st)
          (calls st).
Definition start_thread (upc : string) (st : state) : state :=
  mkState (redis st) (files st) (dirs st) (processing_upcs st)
          (threads st ++ [upc])%list (calls st).
Definition record_call (c : call) (st : state) : state :=
  mkState (redis st) (files st) (dirs st) (processing_upcs st) (threads st)
          (calls st ++ [c])%list.

(** ** Computations that change the state and may raise *)

Definition M (A : Type) : Type := state → result A * state.

Definition ret {A : Type} (a : A) : M A := λ st, (Ret a, st).
Definition raise {A : Type} (e : exn) : M A := λ st, (Raise e, st).
Definition bind {A B} (m : M A) (k : A → M B) : M B :=
  λ st, match m st with
        | (Ret a, st') => k a st'
        | (Raise e, st') => (Raise e, st')
        end.
Definition lift {A} (r : result A) : M A := λ st, (r, st).
Definition get_state : M state := λ st, (Ret st, st).
Definition modify (f : state → state) : M unit := λ st, (Ret tt, f st).

(** [try: m except Exception as e: handler e] *)
Definition try_except {A} (m : M A) (handler : exn → M A) : M A :=
  λ st, match m st with
        | (Ret a, st') => (Ret a, st')
        | (Raise e, st') => handler e st'
        end.

(** [try: m finally: cleanup] *)
Definition try_finally {A} (m : M A) (cleanup : state → state) : M A :=
  λ st, let '(r, st') := m st in (r, cleanup st').

(** stdpp's monad notation: [x ← m; k] and [m;; k]. *)
Global Instance M_ret : MRet M := @ret.
Global Instance M_bind : MBind M := λ A B k m, bind m k.

(** ** The outside world *)

(** [requests.get(...)], [raise_for_status()] and [response.json()] of the
    lookup client. *)
Inductive lookup_reply : Type :=
  | LookupRequestException      (* network failure, timeout or non-2xx status *)
  | LookupJSONDecodeError       (* the body is not JSON *)
  | LookupBody (data : json)
  | LookupOtherException (msg : string).

(** [json.loads(payload)]: the value, [json.JSONDecodeError], or another
    exception (bytes that are not UTF-8, a number with too many digits,
    nesting beyond the recursion limit). *)
Inductive loads_result : Type :=
  | Loaded (v : json)
  | JSONDecodeError
  | LoadsRaises (e : exn).

(** [genai.Client(...)] and [client.models.generate_content(...)]: an exception
    raised by the client, the transport or the service, or the response with
    its [text]. *)
Inductive gemini_reply : Type :=
  | GeminiException
  | GeminiResponse (text : option string).

Record World : Type := mkWorld {
  CACHE_EXPIRY_DAYS : Z;
  GEMINI_API_KEY : option string;
  BASE_URL : string;
  (** [s.isdigit()] *)
  str_isdigit : string → bool;
  (** the empty string has no digit *)
  isdigit_empty : str_isdigit "" = false;
  (** [s.strip()] *)
  str_strip : string → string;
  (** [int(s)]; [None] stands for [ValueError] *)
  py_int : string → option Z;
  upcitemdb : string → lookup_reply;
  (** [requests.get(url, timeout=10)] and [raise_for_status()] for the image
      at a position: the content, or [None] when an exception is raised *)
  http_get : nat → json → option string;
  (** [os.path.splitext(urlparse(url).path)[1]], [None] when it raises *)
  url_ext : json → option string;
  (** [Image.open] succeeds on these bytes *)
  pil_open : string → bool;
  (** [image.verify()] succeeds on these bytes *)
  pil_verify : string → bool;
  (** the ranking request for a title, a brand and the contents of the opened
      images *)
  generate_content : json → json → list string → gemini_reply;
  urljoin : string → string → string;
  json_dumps : json → string;
  json_loads : string → loads_result;
  (** the operating system lets this directory be created *)
  can_mkdir : string → bool;
  (** [open(path, 'wb')] and the write succeed *)
  can_write : string → bool;
}.

(** [splitext] returns an extension that is empty or starts with a period. *)
Definition splitext_shape (W : World) : Prop :=
  ∀ url e, url_ext W url = Some e → e = "" ∨ ∃ r, e = String "." r.

(** ** Redis commands *)

Definition redis_get (key : string) (st : state) : option string :=
  fst <$> redis st !! key.

Definition redis_exists (key : string) (st : state) : Z :=
  match redis st !! key with Some _ => 1 | None => 0 end.

Definition redis_delete (key : string) : state → state :=
  set_redis (delete key).

(** [redis_client.setex(key, timedelta(days=days), value)]: [timedelta] accepts
    at most 999999999 days and the server refuses an expiry that is not
    positive. *)
Definition redis_setex (key : string) (days : Z) (value : string) : M unit :=
  if (days <? -999999999) || (999999999 <? days) then
    raise (OtherException "OverflowError")
  else if days * 86400 <=? 0 then raise ResponseError
  else modify (set_redis (<[key := (value, days)]>)).

(** truth value of what [redis_client.get] returns *)
Definition bytes_truthy (o : option string) : bool :=
  match o with Some s => PyStr.truthy s | None => false end.

Definition cache_key (upc : string) : string := "upc:" +:+ upc.

(** ** The service *)

Section Service.

Context (W : World).

(** *** External lookup client *)

(** [get_product_from_upcitemdb]: the request errors handled inside return
    [None]; the test ['items' in data and data['items']] made for the log
    line may itself raise. *)
Definition get_product_from_upcitemdb (upc : string) : M (option json) :=
  modify (record_call (CallLookup upc));;
  match upcitemdb W upc with
  | LookupBody data =>
      match Py.contains "items" data with
      | Raise e => raise e
      | Ret false => mret (Some data)
      | Ret true => _ ← lift (Py.getitem "items" data); mret (Some data)
      end
  | LookupRequestException | LookupJSONDecodeError => mret None
  | LookupOtherException msg => raise (OtherException msg)
  end.

(** *** Image fetch and validate *)

(** [str(Path('static') / 'upc_images' / upc / f"{upc}_{i}{ext}")] *)
Definition image_path (upc : string) (i : nat) (ext : string) : string :=
  "static/upc_images/" +:+ upc +:+ "/" +:+ upc +:+ "_" +:+ PyStr.of_nat i +:+ ext.

(** [filepath.exists() and os.path.getsize(filepath) > 0] *)
Definition has_content (fs : gmap string string) (path : string) : bool :=
  match fs !! path with Some c => PyStr.truthy c | None => false end.

(** [splitext(...)[1] or '.jpg'] *)
Definition ext_or_jpg (e : string) : string :=
  if PyStr.truthy e then e else ".jpg".

(** [str(Path('static') / 'upc_images' / upc)] *)
Definition upc_dir (upc : string) : string := "static/upc_images/" +:+ upc.

(** [d] is a directory: it was created, or a stored file lies under it *)
Definition is_dir (st : state) (d : string) : bool :=
  bool_decide (d ∈ dirs st)
  || existsb (PyStr.startswith (d +:+ "/")) (map fst (map_to_list (files st))).

(** [Path(d).mkdir(exist_ok=True)] where the parent of [d] exists: nothing to
    do for a directory; [FileExistsError] when [d] is a file; otherwise the
    directory is created if the operating system allows it. *)
Definition mkdir (d : string) : M unit :=
  st ← get_state;
  if is_dir st d then mret tt
  else if bool_decide (is_Some (files st !! d)) then raise OSError
  else if can_mkdir W d then modify (set_dirs (λ ds, {[d]} ∪ ds))
  else raise OSError.

(** [base_dir.mkdir(exist_ok=True, parents=True)] for [static/upc_images] *)
Definition mkdir_base : M unit :=
  st ← get_state;
  if is_dir st "static/upc_images" then mret tt
  else mkdir "static";; mkdir "static/upc_images".

(** One iteration of the loop of [save_product_images]; its [try] block
    catches every exception (a failed download, a file that is not an image,
    a file that cannot be written), so it always returns the list to continue
    with. *)
Definition save_one (upc : string) (i : nat) (url : json)
    (saved_paths : list string) : M (list string) :=
  match url_ext W url with
  | None => mret saved_paths
  | Some e =>
      let filepath := image_path upc i (ext_or_jpg e) in
      st ← get_state;
      if has_content (files st) filepath then mret (saved_paths ++ [filepath])%list
      else
        modify (record_call (CallDownload i url));;
        match http_get W i url with
        | None => mret saved_paths
        | Some image_content =>
            if pil_open W image_content && pil_verify W image_content then
              if can_write W filepath then
                modify (set_files (<[filepath := image_content]>));;
                mret (saved_paths ++ [filepath])%list
              else mret saved_paths
            else mret saved_paths
        end
  end.

(** [for i, url in enumerate(image_urls, 1)] from position [i] on *)
Fixpoint save_loop (upc : string) (i : nat) (urls : list json)
    (saved_paths : list string) : M (list string) :=
  match urls with
  | [] => mret saved_paths
  | url :: rest =>
      saved_paths' ← save_one upc i url saved_paths;
      save_loop upc (S i) rest saved_paths'
  end.

Definition save_product_images (upc : string) (image_urls : json)
    : M (list string) :=
  if negb (Py.truthy image_urls) then mret []
  else
    mkdir_base;;
    mkdir (upc_dir upc);;
    match Py.iter image_urls with
    | None => raise TypeError
    | Some urls => save_loop upc 1%nat urls []
    end.

(** *** Best-image selector *)

Definition opens (fs : gmap string string) (path : string) : bool :=
  match fs !! path with Some c => pil_open W c | None => false end.

(** the paths that [Image.open] accepts, in order: [valid_paths] *)
Definition valid_paths (fs : gmap string string) (image_paths : list string)
    : list string :=
  List.filter (opens fs) image_paths.

(** the contents of the opened images, sent with the prompt: [image_parts] *)
Definition image_parts (fs : gmap string string) (valid : list string)
    : list string :=
  omap (λ p, fs !! p) valid.

(** what the code does with the text of the response *)
Definition parse_choice (valid : list string) (text : string) : option string :=
  let result_text := str_strip W text in
  match py_int W result_text with
  | None => None
  | Some best_image_choice =>
      if best_image_choice =? 0 then None
      else
        let best_image_index := best_image_choice - 1 in
        if (0 <=? best_image_index)
           && (best_image_index <? Z.of_nat (length valid))
        then valid !! Z.to_nat best_image_index
        else None
  end.

Definition get_best_image_with_gemini (image_paths : list string)
    (title brand : json) : M (option string) :=
  if negb (bytes_truthy (GEMINI_API_KEY W))
     || match image_paths with [] => true | _ => false end
  then mret None
  else
    st ← get_state;
    let valid := valid_paths (files st) image_paths in
    match valid with
    | [] => mret None
    | _ =>
        modify (record_call (CallGemini valid));;
        match generate_content W title brand (image_parts (files st) valid) with
        | GeminiException => mret None
        | GeminiResponse text =>
            if negb (bytes_truthy text) then mret None
            else mret (parse_choice valid (default "" text))
        end
    end.

(** *** Formatting *)

(** [urljoin(base_url, str(path).replace('\\', '/'))] *)
Definition public_url (path : string) : string :=
  urljoin W (BASE_URL W) (PyStr.replace_backslash path).

(** [item['images'] = v] *)
Definition setitem (k : string) (v : json) (item : json) : result json :=
  match item with
  | JObj kvs => Ret (JObj (Py.dict_set k v kvs))
  | _ => Raise TypeError
  end.

(** the image part of [format_product_data]: the item, possibly with its
    images replaced, and [best_image_path] *)
Definition process_images (upc : string) (item image_urls : json)
    (from_cache : bool) : M (json * json) :=
  if negb from_cache && Py.truthy image_urls then
    saved_paths ← save_product_images upc image_urls;
    match saved_paths with
    | [] => mret (item, JNull)
    | _ =>
        item' ← lift (setitem "images"
                        (JArr (map (λ p, JStr (public_url p)) saved_paths)) item);
        title ← lift (Py.get "title" JNull item');
        brand ← lift (Py.get "brand" JNull item');
        best_image_disk_path ← get_best_image_with_gemini saved_paths title brand;
        if bytes_truthy best_image_disk_path then
          mret (item', JStr (public_url (default "" best_image_disk_path)))
        else mret (item', JNull)
    end
  else mret (item, JNull).

Definition format_product_data (upc : string) (data : json) (from_cache : bool)
    : M (option json) :=
  ok ← lift (Py.has_items data);
  if negb ok then mret None
  else
    items ← lift (Py.getitem "items" data);
    item ← lift (Py.index0 items);
    image_urls ← lift (Py.get "images" (JArr []) item);
    '(item, best_image_path) ← process_images upc item image_urls from_cache;
    title ← lift (Py.get "title" (JStr "") item);
    brand ← lift (Py.get "brand" (JStr "") item);
    description ← lift (Py.get "description" (JStr "") item);
    images ← lift (Py.get "images" (JArr []) item);
    mret (Some (JObj [("upc", JStr upc);
                      ("title", title);
                      ("brand", brand);
                      ("description", description);
                      ("images", images);
                      ("best_image", best_image_path);
                      ("cached", JBool from_cache)])).

(** *** The background job *)

(** the [try] block of [process_upc_background] *)
Definition job_body (upc : string) : M unit :=
  product_data ← get_product_from_upcitemdb upc;
  match product_data with
  | None => mret tt
  | Some data =>
      ok ← lift (Py.has_items data);
      if negb ok then mret tt
      else
        formatted ← format_product_data upc data false;
        match formatted with
        | Some f =>
            if Py.truthy f then
              redis_setex (cache_key upc) (CACHE_EXPIRY_DAYS W) (json_dumps W f)
            else mret tt
        | None => mret tt
        end
  end.

(** the [finally] block: [if upc in processing_upcs: processing_upcs.remove(upc)] *)
Definition release (upc : string) : state → state :=
  set_processing (λ s, if decide (upc ∈ s) then s ∖ {[upc]} else s).

Definition process_upc_background (upc : string) : M unit :=
  try_finally (try_except (job_body upc) (λ _, mret tt)) (release upc).

End Service.

(** ** Request handlers *)

(** What a Flask view returns: [jsonify(body), status_code]. *)
Record response : Type := mkResponse {
  status_code : Z;
  body : json;
}.

(** A column of a data frame, by dtype: integers (a CSV column of integer
    literals is read as this, so [007] is read as 7), floats (given by the
    text [str] prints for each), booleans, or objects (the cells as text,
    [None] for a missing one). *)
Inductive series : Type :=
  | SeriesInt (values : list Z)
  | SeriesFloat (reprs : list string)
  | SeriesBool (values : list bool)
  | SeriesObject (cells : list (option string)).

(** [column.astype(str)] *)
Definition astype_str (column : series) : list string :=
  match column with
  | SeriesInt values => map PyStr.of_Z values
  | SeriesFloat reprs => reprs
  | SeriesBool values => map (λ b : bool, if b then "True" else "False") values
  | SeriesObject cells => map (default "nan") cells
  end.

(** [pd.read_csv(file)]: an exception, or the frame with its [upc] column
    when it has one. *)
Inductive read_csv_result : Type :=
  | CsvException (msg : string)
  | CsvFrame (upc_column : option series).

(** [request.files['file']] *)
Record upload : Type := mkUpload {
  filename : string;
  read_csv : read_csv_result;
}.

(** [Series.unique()]: the distinct values in order of first appearance. *)
Fixpoint unique_from (seen : gset string) (l : list string) : list string :=
  match l with
  | [] => []
  | x :: r =>
      if decide (x ∈ seen) then unique_from seen r
      else x :: unique_from ({[x]} ∪ seen) r
  end.

Definition unique (l : list string) : list string := unique_from ∅ l.

Section Handlers.

Context (W : World).

Definition invalid_upc (upc : string) : bool :=
  negb (PyStr.truthy upc) || negb (str_isdigit W upc).

(** [GET /api/product/<upc>]; an exception of [json.loads] other than
    [JSONDecodeError] is not caught and leaves the view. *)
Definition get_product (upc : string) (st : state) : result response * state :=
  if invalid_upc upc then
    (Ret (mkResponse 400 (JObj [("error", JStr "Invalid UPC format")])), st)
  else
    let cached_data := redis_get (cache_key upc) st in
    if negb (bytes_truthy cached_data) then
      (Ret (mkResponse 404 (JObj [("error", JStr "Product not found in cache")])),
       st)
    else
      match json_loads W (default "" cached_data) with
      | Loaded product_data => (Ret (mkResponse 200 product_data), st)
      | JSONDecodeError =>
          (Ret (mkResponse 500 (JObj [("error", JStr "Invalid cache data")])),
           redis_delete (cache_key upc) st)
      | LoadsRaises e => (Raise e, st)
      end.

(** [processing_upcs.add(upc)] and [Thread(...).start()] *)
Definition spawn (upc : string) (st : state) : state :=
  start_thread upc (set_processing (λ s, {[upc]} ∪ s) st).

(** [POST /api/process/<upc>] *)
Definition process_upc (upc : string) (st : state) : response * state :=
  if invalid_upc upc then
    (mkResponse 400 (JObj [("error", JStr "Invalid UPC")]), st)
  else if bytes_truthy (redis_get (cache_key upc) st) then
    (mkResponse 200 (JObj [("status", JStr "already_cached"); ("upc", JStr upc)]),
     st)
  else if decide (upc ∈ processing_upcs st) then
    (mkResponse 202 (JObj [("status", JStr "processing"); ("upc", JStr upc)]), st)
  else
    (mkResponse 202 (JObj [("status", JStr "processing_started");
                           ("upc", JStr upc);
                           ("check_at", JStr ("/product/" +:+ upc))]),
     spawn upc st).

(** the test of step 2 of [process_batch] *)
Definition to_process (st : state) (upc : string) : bool :=
  let is_cached := redis_exists (cache_key upc) st in
  let is_processing := bool_decide (upc ∈ processing_upcs st) in
  (is_cached =? 0) && negb is_processing && str_isdigit W upc.

Definition batch_report (unique_upcs upcs_to_process : list string) : json :=
  JObj [("status", JStr "batch_processing_queued");
        ("total_upcs_in_file", JNum (Z.of_nat (length unique_upcs)));
        ("upcs_queued", JNum (Z.of_nat (length upcs_to_process)));
        ("upcs_ignored_cached",
         JNum (Z.of_nat (length unique_upcs) - Z.of_nat (length upcs_to_process)));
        ("message",
         JStr "Processing started in the background. Check /product/<upc> for results later.")].

(** [POST /api/process/batch] *)
Definition process_batch (file : option upload) (st : state) : response * state :=
  match file with
  | None => (mkResponse 400 (JObj [("error", JStr "No file part in the request")]), st)
  | Some file =>
      if negb (PyStr.truthy (filename file)) then
        (mkResponse 400 (JObj [("error", JStr "No file selected for uploading")]), st)
      else if negb (PyStr.endswith ".csv" (filename file)) then
        (mkResponse 400 (JObj [("error", JStr "File must be a CSV (.csv)")]), st)
      else
        match read_csv file with
        | CsvException msg =>
            (mkResponse 500
               (JObj [("error", JStr ("Internal error processing file: " +:+ msg))]),
             st)
        | CsvFrame None =>
            (mkResponse 400
               (JObj [("error",
                      JStr ("CSV must contain a column named "
                            +:+ PyStr.dquote +:+ "upc" +:+ PyStr.dquote))]), st)
        | CsvFrame (Some column) =>
            let unique_upcs := unique (astype_str column) in
            let upcs_to_process := List.filter (to_process st) unique_upcs in
            (mkResponse 202 (batch_report unique_upcs upcs_to_process),
             foldl (λ s upc, spawn upc s) st upcs_to_process)
        end
  end.

End Handlers.

(** ** A JSON codec to run the model

    [json.dumps] with its default separators and [ensure_ascii], and
    [json.loads], for documents made of null, booleans, integers, strings,
    arrays and objects. It instantiates [json_dumps] and [json_loads] in the
    concrete runs below; the theorems do not depend on it. *)

Module MiniJson.

Definition dq : ascii := ascii_of_nat 34.
Definition backslash : ascii := ascii_of_nat 92.

Definition hex_digit (n : nat) : ascii :=
  ascii_of_nat (if (n <? 10)%nat then 48 + n else 87 + n).

Definition hex_value (c : ascii) : option nat :=
  let n := nat_of_ascii c in
  if (48 <=? n)%nat && (n <=? 57)%nat then Some (n - 48)%nat
  else if (97 <=? n)%nat && (n <=? 102)%nat then Some (n - 87)%nat
  else if (65 <=? n)%nat && (n <=? 70)%nat then Some (n - 55)%nat
  else None.

(** the escape letter of a character that has one *)
Definition short_escape (c : ascii) : option ascii :=
  let n := nat_of_ascii c in
  if (n =? 34)%nat then Some dq
  else if (n =? 92)%nat then Some backslash
  else if (n =? 10)%nat then Some "n"%char
  else if (n =? 13)%nat then Some "r"%char
  else if (n =? 9)%nat then Some "t"%char
  else if (n =? 8)%nat then Some "b"%char
  else if (n =? 12)%nat then Some "f"%char
  else None.

Definition escape_char (c : ascii) : string :=
  match short_escape c with
  | Some e => String backslash (String e "")
  | None =>
      let n := nat_of_ascii c in
      if (32 <=? n)%nat && (n <=? 126)%nat then String c ""
      else String backslash
             (String "u" (String "0" (String "0"
                (String (hex_digit (n / 16)) (String (hex_digit (n mod 16)) "")))))
  end.

Fixpoint escape (s : string) : string :=
  match s with
  | EmptyString => EmptyString
  | String c r => escape_char c +:+ escape r
  end.

Definition quote (s : string) : string :=
  String dq (escape s +:+ String dq "").

Definition of_Z (n : Z) : string := NilEmpty.string_of_int (Z.to_int n).

Fixpoint dumps (v : json) : string :=
  match v with
  | JNull => "null"
  | JBool true => "true"
  | JBool false => "false"
  | JNum n => of_Z n
  | JStr s => quote s
  | JArr l =>
      "[" +:+ (fix items (l : list json) : string :=
                 match l with
                 | [] => ""
                 | [x] => dumps x
                 | x :: r => dumps x +:+ ", " +:+ items r
                 end) l +:+ "]"
  | JObj kvs =>
      "{" +:+ (fix members (kvs : list (string * json)) : string :=
                 match kvs with
                 | [] => ""
                 | [(k, x)] => quote k +:+ ": " +:+ dumps x
                 | (k, x) :: r => quote k +:+ ": " +:+ dumps x +:+ ", " +:+ members r
                 end) kvs +:+ "}"
  end.

Definition is_ws (c : ascii) : bool :=
  let n := nat_of_ascii c in
  (n =? 32)%nat || (n =? 9)%nat || (n =? 10)%nat || (n =? 13)%nat.

Fixpoint skip_ws (s : string) : string :=
  match s with
  | String c r => if is_ws c then skip_ws r else s
  | EmptyString => EmptyString
  end.

Definition unescape (e : ascii) : option ascii :=
  let n := nat_of_ascii e in
  if (n =? 34)%nat then Some dq
  else if (n =? 92)%nat then Some backslash
  else if (n =? 47)%nat then Some "/"%char
  else if (n =? 110)%nat then Some (ascii_of_nat 10)
  else if (n =? 114)%nat then Some (ascii_of_nat 13)
  else if (n =? 116)%nat then Some (ascii_of_nat 9)
  else if (n =? 98)%nat then Some (ascii_of_nat 8)
  else if (n =? 102)%nat then Some (ascii_of_nat 12)
  else None.

Definition hex4 (a b c d : ascii) : option ascii :=
  x3 ← hex_value a; x2 ← hex_value b; x1 ← hex_value c; x0 ← hex_value d;
  let n := (((x3 * 16 + x2) * 16 + x1) * 16 + x0)%nat in
  if (n <? 256)%nat then Some (ascii_of_nat n) else None.

(** the characters after an opening quote, up to the closing one *)
Fixpoint parse_string (s : string) : option (string * string) :=
  match s with
  | EmptyString => None
  | String c r =>
      if Ascii.eqb c dq then Some ("", r)
      else if Ascii.eqb c backslash then
        match r with
        | String e r' =>
            match unescape e with
            | Some ch =>
                '(str, rest) ← parse_string r'; Some (String ch str, rest)
            | None =>
                if Ascii.eqb e "u" then
                  match r' with
                  | String h3 (String h2 (String h1 (String h0 r''))) =>
                      ch ← hex4 h3 h2 h1 h0;
                      '(str, rest) ← parse_string r'';
                      Some (String ch str, rest)
                  | _ => None
                  end
                else None
            end
        | EmptyString => None
        end
      else if (nat_of_ascii c <? 32)%nat then None
      else '(str, rest) ← parse_string r; Some (String c str, rest)
  end.

Fixpoint span_digits (acc : Z) (s : string) : Z * string :=
  match s with
  | String c r =>
      if PyStr.is_ascii_digit c then span_digits (10 * acc + PyStr.digit_value c) r
      else (acc, s)
  | EmptyString => (acc, s)
  end.

(** an integer without sign: a lone zero, or digits not starting with zero *)
Definition parse_nat (s : string) : option (Z * string) :=
  match s with
  | String c r =>
      if Ascii.eqb c "0" then Some (0, r)
      else if PyStr.is_ascii_digit c then Some (span_digits 0 s)
      else None
  | EmptyString => None
  end.

Definition expect (p : string) (v : json) (s : string) : option (json * string) :=
  if PyStr.startswith p s
  then Some (v, String.substring (String.length p) (String.length s) s)
  else None.

(** the elements of an array after the first bracket *)
Fixpoint elements (value : string → option (json * string)) (n : nat)
    (s : string) : option (list json * string) :=
  match n with
  | O => None
  | S n =>
      '(v, r) ← value s;
      match skip_ws r with
      | String "," r' => '(vs, r'') ← elements value n r'; Some (v :: vs, r'')
      | String "]" r' => Some ([v], r')
      | _ => None
      end
  end.

(** the members of an object after the first brace *)
Fixpoint members (value : string → option (json * string)) (n : nat)
    (s : string) : option (list (string * json) * string) :=
  match n with
  | O => None
  | S n =>
      match skip_ws s with
      | String c r =>
          if Ascii.eqb c dq then
            '(k, r1) ← parse_string r;
            match skip_ws r1 with
            | String ":" r2 =>
                '(v, r3) ← value r2;
                match skip_ws r3 with
                | String "," r4 =>
                    '(kvs, r5) ← members value n r4; Some ((k, v) :: kvs, r5)
                | String "}" r4 => Some ([(k, v)], r4)
                | _ => None
                end
            | _ => None
            end
          else None
      | EmptyString => None
      end
  end.

Fixpoint parse_value (fuel : nat) (s : string) : option (json * string) :=
  match fuel with
  | O => None
  | S fuel =>
      match skip_ws s with
      | EmptyString => None
      | String c r as s' =>
          if Ascii.eqb c dq then '(str, rest) ← parse_string r; Some (JStr str, rest)
          else if Ascii.eqb c "n" then expect "null" JNull s'
          else if Ascii.eqb c "t" then expect "true" (JBool true) s'
          else if Ascii.eqb c "f" then expect "false" (JBool false) s'
          else if Ascii.eqb c "[" then
            match skip_ws r with
            | String "]" r' => Some (JArr [], r')
            | _ => '(vs, rest) ← elements (parse_value fuel) (String.length r) r;
                   Some (JArr vs, rest)
            end
          else if Ascii.eqb c "{" then
            match skip_ws r with
            | String "}" r' => Some (JObj [], r')
            | _ => '(kvs, rest) ← members (parse_value fuel) (String.length r) r;
                   Some (JObj kvs, rest)
            end
          else if Ascii.eqb c "-" then
            '(n, rest) ← parse_nat r; Some (JNum (- n), rest)
          else '(n, rest) ← parse_nat s'; Some (JNum n, rest)
      end
  end.

Definition loads (s : string) : option json :=
  '(v, rest) ← parse_value (S (String.length s)) s;
  match skip_ws rest with
  | EmptyString => Some v
  | _ => None
  end.

End MiniJson.

(** ** A concrete world and concrete states *)

Module Demo.

(** Stand-ins for [str.isdigit], [str.strip] and [int] on ASCII text, for the
    concrete runs. *)

(** white space among the ASCII characters: TAB..CR, FS..US and space *)
Definition is_space (c : ascii) : bool :=
  let n := nat_of_ascii c in
  ((9 <=? n)%nat && (n <=? 13)%nat) || ((28 <=? n)%nat && (n <=? 32)%nat).

(** at least one character and all of them ASCII digits *)
Definition ascii_isdigit (s : string) : bool :=
  match s with
  | EmptyString => false
  | _ => PyStr.all_chars PyStr.is_ascii_digit s
  end.

Fixpoint lstrip (s : string) : string :=
  match s with
  | String c r => if is_space c then lstrip r else s
  | EmptyString => EmptyString
  end.

Fixpoint rstrip (s : string) : string :=
  match s with
  | EmptyString => EmptyString
  | String c r =>
      match rstrip r with
      | EmptyString => if is_space c then EmptyString else String c EmptyString
      | r' => String c r'
      end
  end.

(** ASCII white space removed at both ends *)
Definition ascii_strip (s : string) : string := rstrip (lstrip s).

(** The digits of an [int] literal, most significant first; one underscore
    is allowed between two digits. [after_digit] tells whether the previous
    character was a digit. *)
Fixpoint int_digits (after_digit : bool) (acc : Z) (s : string) : option Z :=
  match s with
  | EmptyString => if after_digit then Some acc else None
  | String c r =>
      if PyStr.is_ascii_digit c then
        int_digits true (10 * acc + PyStr.digit_value c) r
      else if (Ascii.eqb c "_" && after_digit)%bool then
        match r with
        | String d _ =>
            if PyStr.is_ascii_digit d then int_digits false acc r else None
        | EmptyString => None
        end
      else None
  end.

(** an integer literal of ASCII digits, with sign and white space around *)
Definition ascii_int (s : string) : option Z :=
  match ascii_strip s with
  | String "-" r => Z.opp <$> int_digits false 0 r
  | String "+" r => int_digits false 0 r
  | r => int_digits false 0 r
  end.


(** What [pd.read_csv] makes of a column of cells, for the two cases of the
    runs: cells that are all runs of ASCII digits within the 64-bit range
    become integers, any other text stays as it is. *)
Definition read_column (cells : list string) : series :=
  if forallb ascii_isdigit cells
     && forallb (λ c, bool_decide (default 0 (ascii_int c) < 2 ^ 63)) cells
  then SeriesInt (map (λ c, default 0 (ascii_int c)) cells)
  else SeriesObject (map Some cells).

(** [json.loads] of the codec above: its failures are decode errors *)
Definition loads (payload : string) : loads_result :=
  match MiniJson.loads payload with
  | Some v => Loaded v
  | None => JSONDecodeError
  end.

Fixpoint has_slash (s : string) : bool :=
  match s with
  | EmptyString => false
  | String c r => Ascii.eqb c "/" || has_slash r
  end.

(** the extension of the last component of a path *)
Fixpoint last_ext (s : string) : string :=
  match s with
  | EmptyString => ""
  | String c r =>
      match last_ext r with
      | EmptyString => if Ascii.eqb c "." && negb (has_slash r) then s else ""
      | e => e
      end
  end.

Definition ext_of (url : json) : option string :=
  match url with
  | JStr s => Some (last_ext s)
  | _ => None
  end.

(** stands for the signature check of an image decoder *)
Definition is_png (content : string) : bool := PyStr.startswith "PNG" content.

Definition widget : json :=
  JObj [("code", JStr "OK");
        ("items",
         JArr [JObj [("title", JStr "Widget");
                     ("brand", JStr "Acme");
                     ("images", JArr [JStr "http://img.example/a.png";
                                      JStr "http://img.example/broken.png";
                                      JStr "http://img.example/c"])]])].

Definition lookup (upc : string) : lookup_reply :=
  if String.eqb upc "012345" then LookupBody widget
  else if String.eqb upc "404" then LookupBody (JObj [("code", JStr "OK"); ("items", JArr [])])
  else if String.eqb upc "7" then LookupBody (JNum 7)
  else LookupRequestException.

Definition download (i : nat) (url : json) : option string :=
  match url with
  | JStr s =>
      if String.eqb s "http://img.example/a.png" then Some "PNG-a"
      else if String.eqb s "http://img.example/broken.png" then Some "<html>"
      else if String.eqb s "http://img.example/c" then Some "PNG-c"
      else None
  | _ => None
  end.

(** a world whose ranking service answers [text] *)
Definition world (text : gemini_reply) : World :=
  {| CACHE_EXPIRY_DAYS := 30;
     GEMINI_API_KEY := Some "secret";
     BASE_URL := "http://localhost:5000";
     str_isdigit := ascii_isdigit;
     isdigit_empty := eq_refl;
     str_strip := ascii_strip;
     py_int := ascii_int;
     upcitemdb := lookup;
     http_get := download;
     url_ext := ext_of;
     pil_open := is_png;
     pil_verify := is_png;
     generate_content := λ _ _ _, text;
     urljoin := λ base path, base +:+ "/" +:+ path;
     json_dumps := MiniJson.dumps;
     json_loads := loads;
     can_mkdir := λ d, (String.length d <=? 255)%nat;  (* short names only *)
     can_write := λ _, true |}.

Definition W0 : World := world (GeminiResponse (Some " 2
")).

Definition empty_state : state := mkState ∅ ∅ ∅ ∅ [] [].

End Demo.

(** ** Specification-level notions *)

(** the responses of the coordinator, as the handlers build them *)
Definition already_cached (upc : string) : response :=
  mkResponse 200 (JObj [("status", JStr "already_cached"); ("upc", JStr upc)]).

Definition already_processing (upc : string) : response :=
  mkResponse 202 (JObj [("status", JStr "processing"); ("upc", JStr upc)]).

Definition started (upc : string) : response :=
  mkResponse 202 (JObj [("status", JStr "processing_started");
                        ("upc", JStr upc);
                        ("check_at", JStr ("/product/" +:+ upc))]).

(** the responses of the read path *)
Definition not_found : response :=
  mkResponse 404 (JObj [("error", JStr "Product not found in cache")]).

Definition invalid_cache_data : response :=
  mkResponse 500 (JObj [("error", JStr "Invalid cache data")]).

(** a field of a JSON response body *)
Definition field (k : string) (r : response) : option json :=
  match body r with
  | JObj kvs => Py.dict_lookup k kvs
  | _ => None
  end.

(** The ways the pipeline of the job for [upc] fails from state [st]. *)
Inductive pipeline_fails (W : World) (upc : string) (st : state) : Prop :=
  | fails_transient :
      upcitemdb W upc = LookupRequestException ∨ upcitemdb W upc = LookupJSONDecodeError →
      pipeline_fails W upc st
  | fails_no_items data :
      upcitemdb W upc = LookupBody data →
      Py.has_items data = Ret false →
      pipeline_fails W upc st
  | fails_no_result data st1 :
      upcitemdb W upc = LookupBody data →
      format_product_data W upc data false (record_call (CallLookup upc) st)
        = (Ret None, st1) →
      pipeline_fails W upc st
  | fails_exception e st1 :
      job_body W upc st = (Raise e, st1) →
      pipeline_fails W upc st.

(** Batch submission, in the words of the specification: the keys of the file
    as a set, and those of them that are valid, not cached and not in flight. *)
Definition fresh_key (W : World) (st : state) (k : string) : Prop :=
  str_isdigit W k = true ∧ redis st !! cache_key k = None ∧ k ∉ processing_upcs st.

Global Instance fresh_key_dec W st k : Decision (fresh_key W st k).
Proof. unfold fresh_key. apply _. Defined.

Definition unique_keys (column : list string) : gset string := list_to_set column.

Definition new_keys (W : World) (st : state) (column : list string) : gset string :=
  filter (fresh_key W st) (unique_keys column).

(** an upload that passes the checks on the file *)
Definition csv_upload (name : string) (column : series) : option upload :=
  Some (mkUpload name (CsvFrame (Some column))).

(** The service as a transition system: requests are handled one at a time,
    and a started job runs to its end at some later point. *)
Definition finish_thread (upc : string) (st : state) : state :=
  mkState (redis st) (files st) (dirs st) (processing_upcs st)
          (List.filter (λ k, negb (String.eqb k upc)) (threads st)) (calls st).

Inductive step_in (W : World) : state → state → Prop :=
  | step_get_product upc st :
      step_in W st (get_product W upc st).2
  | step_process_upc upc st :
      step_in W st (process_upc W upc st).2
  | step_process_batch file st :
      step_in W st (process_batch W file st).2
  | step_job_ends upc st :
      upc ∈ threads st →
      step_in W st (finish_thread upc (process_upc_background W upc st).2).

(** the outside world may be another one at every step *)
Definition step (st st' : state) : Prop := ∃ W, step_in W st st'.

Inductive reachable : state → Prop :=
  | reachable_init files0 dirs0 redis0 :
      reachable (mkState redis0 files0 dirs0 ∅ [] [])
  | reachable_step st st' :
      reachable st → step st st' → reachable st'.

(** the states reached while [str.isdigit] stays the function [isdigit],
    whatever else changes in the outside world *)
Inductive reachable_with (isdigit : string → bool) : state → Prop :=
  | reachable_with_init files0 dirs0 redis0 :
      reachable_with isdigit (mkState redis0 files0 dirs0 ∅ [] [])
  | reachable_with_step W st st' :
      (∀ s, str_isdigit W s = isdigit s) →
      reachable_with isdigit st → step_in W st st' →
      reachable_with isdigit st'.

(** the in-flight set is exactly the set of running jobs, one per key *)
Definition single_flight (st : state) : Prop :=
  NoDup (threads st) ∧ ∀ k, k ∈ processing_upcs st ↔ k ∈ threads st.

(** [m] never changes the component [proj] of the state *)
Definition preserves {X A : Type} (proj : state → X) (m : M A) : Prop :=
  ∀ st, proj (m st).2 = proj st.

(** the destination paths of the URLs that have one, from position [i] on *)
Fixpoint all_paths (W : World) (upc : string) (i : nat) (urls : list json)
    : list string :=
  match urls with
  | [] => []
  | url :: rest =>
      match url_ext W url with
      | Some e => image_path upc i (ext_or_jpg e) :: all_paths W upc (S i) rest
      | None => all_paths W upc (S i) rest
      end
  end.

(** every URL has a destination path and a non-empty file is stored there *)
Definition all_stored (W : World) (upc : string) (i : nat) (urls : list json)
    (fs : gmap string string) : Prop :=
  ∀ k url, urls !! k = Some url →
    ∃ e, url_ext W url = Some e
         ∧ has_content fs (image_path upc (i + k) (ext_or_jpg e)) = true.

(** ** Concrete states *)

Module Runs.

Import Demo.

(** a cache whose entry for key 1 is not JSON *)
Definition corrupt_cache : state :=
  mkState {[ "upc:1" := ("{", 30) ]} ∅ ∅ ∅ [] [].

(** the job for a key the lookup service knows, started on an empty system *)
Definition after_job : state :=
  (process_upc_background W0 "012345" (spawn "012345" empty_state)).2.

(** three stored files of which the second is not an image *)
Definition three_paths : list string :=
  ["static/upc_images/9/9_1.png"; "static/upc_images/9/9_2.png";
   "static/upc_images/9/9_3.png"].

Definition second_unreadable : state :=
  mkState ∅ {[ "static/upc_images/9/9_1.png" := "PNG-1";
               "static/upc_images/9/9_2.png" := "<html>";
               "static/upc_images/9/9_3.png" := "PNG-3" ]} ∅ ∅ [] [].

(** three stored files that all open *)
Definition three_images : state :=
  mkState ∅ {[ "static/upc_images/9/9_1.png" := "PNG-1";
               "static/upc_images/9/9_2.png" := "PNG-2";
               "static/upc_images/9/9_3.png" := "PNG-3" ]} ∅ ∅ [] [].

(** the ranking service answering a given text *)
Definition answering (text : string) : World := world (GeminiResponse (Some text)).

(** a cache whose entry for key 1 has an empty payload *)
Definition empty_payload : state :=
  mkState {[ "upc:1" := ("", 30) ]} ∅ ∅ ∅ [] [].

(** a cache that holds a result for key 002 *)
Definition cached_002 : state :=
  mkState {[ "upc:002" :=
               (MiniJson.dumps (JObj [("upc", JStr "002"); ("cached", JBool false)]),
                30) ]} ∅ ∅ ∅ [] [].

(** key 5 is being processed *)
Definition in_flight_5 : state := spawn "5" empty_state.

(** two image URLs that download and validate *)
Definition two_urls : json :=
  JArr [JStr "http://img.example/a.png"; JStr "http://img.example/c"].

Definition first_fetch : result (list string) * state :=
  save_product_images W0 "42" two_urls empty_state.

(** the [upc] column of a file whose rows are 001, 001 and 002, as read *)
Definition rows_001_001_002 : series := read_column ["001"; "001"; "002"].

(** the [upc] column of a file whose rows are 001, 12a and 001, as read *)
Definition rows_001_12a_001 : series := read_column ["001"; "12a"; "001"].

(** the [upc] column of a file whose rows are 123, 123 and 456, as read *)
Definition rows_123_123_456 : series := read_column ["123"; "123"; "456"].

(** a cache that holds a result for key 456 *)
Definition cached_456 : state :=
  mkState {[ "upc:456" :=
               (MiniJson.dumps (JObj [("upc", JStr "456"); ("cached", JBool false)]),
                30) ]} ∅ ∅ ∅ [] [].

(** a key of 300 digits, longer than a directory name may be *)
Definition long_key : string :=
  Eval vm_compute in
    (fix rep (n : nat) : string :=
       match n with O => "" | S n => String "7" (rep n) end) 300%nat.

End Runs.

(** ** Notions for the further properties *)

(** From [st] to [st']: the files that had content are untouched and the
    network log only grew. *)
Definition kept (st st' : state) : Prop :=
  (∀ p, has_content (files st) p = true → files st' !! p = files st !! p)
  ∧ (∃ l, calls st' = (calls st ++ l)%list).

(** every run of [m] keeps the stored files and extends the log *)
Definition advances {A : Type} (m : M A) : Prop := ∀ st, kept st (m st).2.

(** the rest of [save_product_images] once the two directories are there:
    [for i, url in enumerate(image_urls, 1)] *)
Definition save_all (W : World) (upc : string) (image_urls : json)
    : M (list string) :=
  match Py.iter image_urls with
  | None => raise TypeError
  | Some urls => save_loop W upc 1%nat urls []
  end.

Definition is_download (c : call) : bool :=
  match c with CallDownload _ _ => true | _ => false end.

(** bytes that pass [Image.open] and [verify] are not empty *)
Definition valid_nonempty (W : World) : Prop :=
  ∀ c, pil_open W c && pil_verify W c = true → c ≠ "".

(** the fields of a formatted result, in the order the code writes them *)
Definition result_keys : list string :=
  ["upc"; "title"; "brand"; "description"; "images"; "best_image"; "cached"].

(** all the keys in flight are valid keys *)
Definition in_flight_valid (isdigit : string → bool) (st : state) : Prop :=
  ∀ k, k ∈ processing_upcs st → isdigit k = true.

(** * Properties *)

(** ** Frame lemmas: what a computation leaves alone *)

Section Frame.

Context {X : Type} (proj : state → X).

Lemma preserves_ret {A} (a : A) : preserves proj (mret a).
Proof. done. Qed.

Lemma preserves_raise {A} e : preserves proj (@raise A e).
Proof. done. Qed.

Lemma preserves_lift {A} (r : result A) : preserves proj (lift r).
Proof. done. Qed.

Lemma preserves_get_state : preserves proj get_state.
Proof. done. Qed.

Lemma preserves_bind {A B} (m : M A) (k : A → M B) :
  preserves proj m → (∀ a, preserves proj (k a)) → preserves proj (m ≫= k).
Proof.
  intros Hm Hk st. unfold mbind, M_bind, bind.
  specialize (Hm st). destruct (m st) as [[a|e] st1]; simpl in *.
  - rewrite Hk. done.
  - done.
Qed.

Lemma preserves_modify (f : state → state) :
  (∀ st, proj (f st) = proj st) → preserves proj (modify f).
Proof. intros Hf st. apply Hf. Qed.

Lemma preserves_try_except {A} (m : M A) h :
  preserves proj m → (∀ e, preserves proj (h e)) → preserves proj (try_except m h).
Proof.
  intros Hm Hh st. unfold try_except.
  specialize (Hm st). destruct (m st) as [[a|e] st1]; simpl in *.
  - done.
  - rewrite Hh. done.
Qed.

End Frame.

Create HintDb frame.
#[export] Hint Resolve preserves_ret preserves_raise preserves_lift
  preserves_get_state preserves_modify preserves_try_except : frame.

(** Decompose a computation along its binds, its branches and its matches. *)
Ltac frame_step :=
  match goal with
  | |- preserves _ (_ ≫= _) => apply preserves_bind; [| intros ?]
  | |- preserves _ (if ?b then _ else _) => destruct b
  | |- preserves _ (match ?x with _ => _ end) => destruct x
  | |- preserves _ (let _ := _ in _) => cbv zeta
  | |- preserves _ _ => solve [eauto with frame]
  end.
Ltac frame := repeat frame_step.

Section FrameService.

Context (W : World).

(** a projection that looks at neither the files, nor the call log, nor the
    directories *)
Context {X : Type} (proj : state → X).
Hypothesis proj_files : ∀ f st, proj (set_files f st) = proj st.
Hypothesis proj_calls : ∀ c st, proj (record_call c st) = proj st.
Hypothesis proj_dirs : ∀ f st, proj (set_dirs f st) = proj st.

Lemma preserves_lookup upc : preserves proj (get_product_from_upcitemdb W upc).
Proof. unfold get_product_from_upcitemdb. frame. Qed.

Lemma preserves_save_one upc i url saved :
  preserves proj (save_one W upc i url saved).
Proof. unfold save_one. frame. Qed.

Lemma preserves_save_loop upc urls : ∀ i saved,
  preserves proj (save_loop W upc i urls saved).
Proof.
  induction urls as [|url rest IH]; intros i saved; simpl.
  - frame.
  - apply preserves_bind; [apply preserves_save_one | intros; apply IH].
Qed.

Lemma preserves_mkdir d : preserves proj (mkdir W d).
Proof. unfold mkdir. frame. Qed.

Lemma preserves_mkdir_base : preserves proj (mkdir_base W).
Proof.
  unfold mkdir_base. apply preserves_bind; [frame | intros st0].
  destruct (is_dir st0 "static/upc_images"); [frame |].
  apply preserves_bind; [apply preserves_mkdir | intros; apply preserves_mkdir].
Qed.

Lemma preserves_save_product_images upc image_urls :
  preserves proj (save_product_images W upc image_urls).
Proof.
  unfold save_product_images.
  destruct (negb (Py.truthy image_urls)); [frame |].
  apply preserves_bind; [apply preserves_mkdir_base | intros _].
  apply preserves_bind; [apply preserves_mkdir | intros _].
  destruct (Py.iter image_urls); [apply preserves_save_loop | frame].
Qed.

Lemma preserves_gemini paths title brand :
  preserves proj (get_best_image_with_gemini W paths title brand).
Proof. unfold get_best_image_with_gemini. frame. Qed.

Lemma preserves_process_images upc item image_urls from_cache :
  preserves proj (process_images W upc item image_urls from_cache).
Proof.
  unfold process_images.
  destruct (negb from_cache && Py.truthy image_urls); [| frame].
  apply preserves_bind; [apply preserves_save_product_images |].
  intros [|p ps]; [frame |].
  repeat (apply preserves_bind; [solve [eauto with frame] | intros ?]).
  apply preserves_bind; [apply preserves_gemini | intros ?]. frame.
Qed.

Lemma preserves_format upc data from_cache :
  preserves proj (format_product_data W upc data from_cache).
Proof.
  unfold format_product_data.
  apply preserves_bind; [frame | intros ok].
  destruct (negb ok); [frame |].
  repeat (apply preserves_bind; [solve [eauto with frame] | intros ?]).
  apply preserves_bind; [apply preserves_process_images | intros [? ?]].
  frame.
Qed.

End FrameService.

(** ** Job coordinator *)

Lemma isdigit_valid {W : World} upc :
  str_isdigit W upc = true → invalid_upc W upc = false.
Proof.
  unfold invalid_upc. intros H. destruct upc as [|c r].
  - by rewrite isdigit_empty in H.
  - by rewrite H.
Qed.

Lemma bytes_truthy_spec o :
  bytes_truthy o = true ↔ ∃ v, o = Some v ∧ v ≠ "".
Proof.
  destruct o as [[|c v]|]; simpl; split; try done.
  - intros [v [[= <-] Hv]]. done.
  - intros _. by eexists.
  - intros [v [? _]]. done.
Qed.

(** C1. A valid key that is in flight and not cached: the request answers
    [processing] (202) and changes nothing, so the key is not inserted again
    and no second job is started. *)
Theorem C1_in_flight_is_not_restarted (W : World) (upc : string) (st : state) :
  str_isdigit W upc = true →
  upc ∈ processing_upcs st →
  redis st !! cache_key upc = None →
  process_upc W upc st = (already_processing upc, st).
Proof.
  intros Hd Hin Hc. unfold process_upc, redis_get.
  rewrite (isdigit_valid _ Hd), Hc. simpl.
  by rewrite decide_True.
Qed.

(** C8. A valid key with a live cache entry (a non-empty payload, as every
    serialized result is): the request answers [already_cached] (200) and the
    state is unchanged: same in-flight set, no job started, no network call. *)
Theorem C8_cached_short_circuits (W : World) (upc : string) (st : state)
    (payload : string) (ttl : Z) :
  str_isdigit W upc = true →
  redis st !! cache_key upc = Some (payload, ttl) →
  payload ≠ "" →
  process_upc W upc st = (already_cached upc, st).
Proof.
  intros Hd Hc Hne. unfold process_upc, redis_get.
  rewrite (isdigit_valid _ Hd), Hc. simpl.
  by destruct payload.
Qed.

Section Job.

Context (W : World).

Lemma lookup_state upc st :
  (get_product_from_upcitemdb W upc st).2 = record_call (CallLookup upc) st.
Proof.
  unfold get_product_from_upcitemdb, mbind, M_bind, bind. simpl.
  destruct (upcitemdb W upc) as [| |data|msg]; try done.
  destruct (Py.contains "items" data) as [[|]|e]; try done.
  unfold lift. by destruct (Py.getitem "items" data).
Qed.

Lemma lookup_result upc st data :
  (get_product_from_upcitemdb W upc st).1 = Ret (Some data) →
  upcitemdb W upc = LookupBody data.
Proof.
  unfold get_product_from_upcitemdb, mbind, M_bind, bind. simpl.
  destruct (upcitemdb W upc) as [| |data'|msg]; try done.
  destruct (Py.contains "items" data') as [[|]|e]; simpl; try done.
  - unfold lift. destruct (Py.getitem "items" data'); simpl; congruence.
  - congruence.
Qed.

Lemma preserves_setex {X} (proj : state → X) key days value :
  (∀ f st, proj (set_redis f st) = proj st) →
  preserves proj (redis_setex key days value).
Proof. intros H. unfold redis_setex. frame. Qed.

(** the [try] block touches neither the in-flight set nor the threads *)
Lemma preserves_job_body {X} (proj : state → X) upc :
  (∀ f st, proj (set_files f st) = proj st) →
  (∀ c st, proj (record_call c st) = proj st) →
  (∀ f st, proj (set_redis f st) = proj st) →
  (∀ f st, proj (set_dirs f st) = proj st) →
  preserves proj (job_body W upc).
Proof.
  intros Hf Hc Hr Hd. unfold job_body.
  apply preserves_bind; [by apply preserves_lookup | intros [data|]; [| frame]].
  apply preserves_bind; [frame | intros ok]. destruct (negb ok); [frame |].
  apply preserves_bind; [by apply preserves_format | intros [f|]; [| frame]].
  destruct (Py.truthy f); [| frame]. by apply preserves_setex.
Qed.

(** What the [try] block does to the cache: nothing, or one [SETEX] of the
    formatted result with the configured expiry, after every stage
    succeeded. *)
Lemma job_body_cache upc st r st1 :
  job_body W upc st = (r, st1) →
  redis st1 = redis st
  ∨ (r = Ret tt
     ∧ ∃ data f st2,
         upcitemdb W upc = LookupBody data
         ∧ Py.has_items data = Ret true
         ∧ format_product_data W upc data false (record_call (CallLookup upc) st)
           = (Ret (Some f), st2)
         ∧ redis st1
           = <[cache_key upc := (json_dumps W f, CACHE_EXPIRY_DAYS W)]> (redis st)).
Proof.
  unfold job_body. unfold mbind at 1, M_bind at 1, bind at 1.
  pose proof (lookup_state upc st) as Hst.
  pose proof (lookup_result upc st) as Hres.
  destruct (get_product_from_upcitemdb W upc st) as [[[data|]|e] st0];
    simpl in Hst, Hres; subst st0.
  2,3: by intros [= <- <-]; left.
  specialize (Hres data eq_refl).
  unfold mbind at 1, M_bind at 1, bind at 1, lift at 1.
  destruct (Py.has_items data) as [[|]|e] eqn:Hok; simpl.
  2,3: by intros [= <- <-]; left.
  unfold mbind, M_bind, bind.
  pose proof (preserves_format W redis (λ _ _, eq_refl) (λ _ _, eq_refl)
                (λ _ _, eq_refl) upc data false (record_call (CallLookup upc) st)) as Hfmt.
  destruct (format_product_data W upc data false (record_call (CallLookup upc) st))
    as [[[f|]|e] st2] eqn:Hf; simpl in Hfmt.
  2,3: by intros [= <- <-]; left.
  destruct (Py.truthy f).
  2: by intros [= <- <-]; left.
  unfold redis_setex.
  destruct ((CACHE_EXPIRY_DAYS W <? -999999999) || (999999999 <? CACHE_EXPIRY_DAYS W)).
  { by intros [= <- <-]; left. }
  destruct (CACHE_EXPIRY_DAYS W * 86400 <=? 0).
  { by intros [= <- <-]; left. }
  intros [= <- <-]. right. split; [done |].
  exists data, f, st2. repeat split; try done.
  simpl. by rewrite Hfmt.
Qed.

Lemma job_outcome upc st :
  process_upc_background W upc st
  = (Ret tt, release upc (job_body W upc st).2).
Proof.
  unfold process_upc_background, try_finally, try_except.
  by destruct (job_body W upc st) as [[[]|e] st1].
Qed.

Lemma release_spec upc st k :
  k ∈ processing_upcs (release upc st) ↔ k ∈ processing_upcs st ∧ k ≠ upc.
Proof.
  unfold release. simpl.
  destruct (decide (upc ∈ processing_upcs st)) as [Hin|Hout].
  - rewrite elem_of_difference, elem_of_singleton. done.
  - split; [| tauto]. intros Hk. split; [done |]. by intros ->.
Qed.

End Job.

(** C2. Whatever the [try] block of the job does (it stores a result, it
    stops early, or it raises at some stage), the job ends normally with the
    key out of the in-flight set; the other keys of the set are untouched. *)
Theorem C2_job_releases_key (W : World) (upc : string) (st : state) :
  ∃ st',
    process_upc_background W upc st = (Ret tt, st')
    ∧ (upc ∉ processing_upcs st')
    ∧ (∀ k, k ≠ upc → (k ∈ processing_upcs st' ↔ k ∈ processing_upcs st)).
Proof.
  eexists. split; [apply job_outcome |]. split.
  - rewrite release_spec. tauto.
  - intros k Hk. rewrite release_spec.
    rewrite (preserves_job_body W processing_upcs upc) by done. tauto.
Qed.

(** C3. If the pipeline of the job fails (transient lookup error, no items,
    no formatted result, or an exception at any stage), the job writes
    nothing to the cache: Redis is as before, and an entry that was absent
    for the key is still absent. Otherwise the job wrote exactly one entry,
    the serialized result under [upc:K] with the configured expiry. *)
Theorem C3_failure_writes_nothing (W : World) (upc : string) (st : state) :
  (pipeline_fails W upc st →
     redis (process_upc_background W upc st).2 = redis st
     ∧ (redis st !! cache_key upc = None →
        redis (process_upc_background W upc st).2 !! cache_key upc = None))
  ∧ (redis (process_upc_background W upc st).2 ≠ redis st →
     ¬ pipeline_fails W upc st
     ∧ ∃ f, redis (process_upc_background W upc st).2
            = <[cache_key upc := (json_dumps W f, CACHE_EXPIRY_DAYS W)]> (redis st)).
Proof.
  rewrite job_outcome. simpl.
  destruct (job_body W upc st) as [r st1] eqn:Hjob. simpl.
  destruct (job_body_cache W upc st r st1 Hjob)
    as [Hsame | (-> & data & f & st2 & Hl & Hok & Hf & Hw)].
  - split.
    + intros _. rewrite Hsame. done.
    + intros Hne. by destruct Hne.
  - assert (Hnf : ¬ pipeline_fails W upc st).
    { intros [[H|H] | d H1 H2 | d s H1 H2 | e s H]; try congruence. }
    split.
    + intros Hfail. by destruct Hnf.
    + intros _. split; [done |]. by exists f.
Qed.

(** ** Read path *)

Lemma bind_ret_inv {A B} (m : M A) (k : A → M B) st b st' :
  (m ≫= k) st = (Ret b, st') →
  ∃ a st1, m st = (Ret a, st1) ∧ k a st1 = (Ret b, st').
Proof.
  unfold mbind, M_bind, bind.
  destruct (m st) as [[a|e] st1]; [| done]. intros H. by exists a, st1.
Qed.

Ltac inv_bind H :=
  let a := fresh "a" in
  let s := fresh "st" in
  let E := fresh "E" in
  apply bind_ret_inv in H as (a & s & E & H).

(** every result that [format_product_data] composes carries the key and the
    value of [from_cache] as its [cached] flag *)
Lemma format_fields W upc data from_cache st f st' :
  format_product_data W upc data from_cache st = (Ret (Some f), st') →
  ∃ kvs, f = JObj kvs
         ∧ Py.dict_lookup "upc" kvs = Some (JStr upc)
         ∧ Py.dict_lookup "cached" kvs = Some (JBool from_cache).
Proof.
  unfold format_product_data. intros H.
  inv_bind H. destruct (negb a); [done |].
  do 3 inv_bind H. inv_bind H. destruct a3 as [item best].
  do 4 inv_bind H.
  injection H as <- <-. eexists. split; [done |]. done.
Qed.




(** An exception of [json.loads] that is not a [JSONDecodeError] passes
    through the handler: there is no answer of its own, and the entry
    stays. *)
Lemma uncaught_loads_error_keeps_entry W upc st payload ttl e :
  str_isdigit W upc = true →
  redis st !! cache_key upc = Some (payload, ttl) →
  payload ≠ "" →
  json_loads W payload = LoadsRaises e →
  get_product W upc st = (Raise e, st).
Proof.
  intros Hd Hc Hne Hbad.
  unfold get_product, redis_get. rewrite (isdigit_valid _ Hd), Hc. simpl.
  destruct payload as [|c r]; [done |]. simpl. by rewrite Hbad.
Qed.

(** An empty payload is treated as no entry by the handlers that read it: the
    read path answers 404 and leaves it in place, and a processing request
    starts a job. *)
Example empty_payload_reads_as_absent :
  get_product Demo.W0 "1" Runs.empty_payload = (Ret not_found, Runs.empty_payload)
  ∧ process_upc Demo.W0 "1" Runs.empty_payload
    = (started "1", spawn "1" Runs.empty_payload).
Proof. split; reflexivity. Qed.

(** C9 as stated fails: the result read back from the cache after a
    successful job has its [cached] flag false, not true. *)
Lemma C9_read_result_flag_is_false :
  (∃ payload, redis Runs.after_job !! cache_key "012345" = Some (payload, 30))
  ∧ ∃ r, (get_product Demo.W0 "012345" Runs.after_job).1 = Ret r
         ∧ status_code r = 200
         ∧ field "cached" r = Some (JBool false)
         ∧ field "cached" r ≠ Some (JBool true).
Proof.
  split.
  - eexists. vm_compute. reflexivity.
  - eexists. split; [vm_compute; reflexivity |]. split; [reflexivity |].
    split; [reflexivity | discriminate].
Qed.

(** C9, amended. Every result the job stores carries the key and a [cached]
    flag that is false (the job formats with [from_cache=False]), and the read
    path returns the stored document as it is: when the payload decodes to
    the stored result, [get_product] answers 200 with that result, flag false. *)
Theorem C9_flag_records_composition (W : World) (upc : string) (st : state) :
  str_isdigit W upc = true →
  redis (process_upc_background W upc st).2 ≠ redis st →
  ∃ kvs,
    redis (process_upc_background W upc st).2 !! cache_key upc
    = Some (json_dumps W (JObj kvs), CACHE_EXPIRY_DAYS W)
    ∧ Py.dict_lookup "cached" kvs = Some (JBool false)
    ∧ (json_dumps W (JObj kvs) ≠ "" →
       json_loads W (json_dumps W (JObj kvs)) = Loaded (JObj kvs) →
       get_product W upc (process_upc_background W upc st).2
       = (Ret (mkResponse 200 (JObj kvs)), (process_upc_background W upc st).2)).
Proof.
  intros Hd. rewrite job_outcome. simpl.
  destruct (job_body W upc st) as [r st1] eqn:Hjob. simpl.
  destruct (job_body_cache W upc st r st1 Hjob)
    as [Hsame | (-> & data & f & st2 & Hl & Hok & Hf & Hw)]; [done |].
  intros _. apply format_fields in Hf as (kvs & -> & _ & Hflag).
  exists kvs. split; [| split].
  - rewrite Hw. apply lookup_insert_eq.
  - done.
  - intros Hne Hrt. unfold get_product, redis_get.
    rewrite (isdigit_valid _ Hd). simpl. rewrite Hw, lookup_insert_eq. simpl.
    destruct (json_dumps W (JObj kvs)) as [|c s] eqn:Hdump; [done |]. simpl.
    rewrite Hrt. done.
Qed.

Lemma C9_flag_records_composition_witness :
  (str_isdigit Demo.W0 "012345" = true
   ∧ redis Runs.after_job ≠ redis (spawn "012345" Demo.empty_state))
  ∧ ∃ kvs,
      redis Runs.after_job !! cache_key "012345"
      = Some (json_dumps Demo.W0 (JObj kvs), CACHE_EXPIRY_DAYS Demo.W0)
      ∧ Py.dict_lookup "cached" kvs = Some (JBool false)
      ∧ (json_dumps Demo.W0 (JObj kvs) ≠ "" →
         json_loads Demo.W0 (json_dumps Demo.W0 (JObj kvs)) = Loaded (JObj kvs) →
         get_product Demo.W0 "012345" Runs.after_job
         = (Ret (mkResponse 200 (JObj kvs)), Runs.after_job)).
Proof.
  assert (Hwritten : redis Runs.after_job ≠ redis (spawn "012345" Demo.empty_state)).
  { intros H. apply (f_equal (λ m, m !! "upc:012345")) in H.
    vm_compute in H. discriminate. }
  split; [split; [reflexivity | exact Hwritten] |].
  apply (C9_flag_records_composition Demo.W0 "012345"
           (spawn "012345" Demo.empty_state)).
  - reflexivity.
  - exact Hwritten.
Defined.

(** ** Best-image selector *)

Section Selector.

Context (W : World).

Lemma valid_paths_all fs image_paths :
  (∀ p, p ∈ image_paths → opens W fs p = true) →
  valid_paths W fs image_paths = image_paths.
Proof.
  unfold valid_paths. induction image_paths as [|p ps IH]; intros H; [done |].
  simpl. rewrite H by apply list_elem_of_here. f_equal. apply IH.
  intros q Hq. apply H. by apply list_elem_of_further.
Qed.

Lemma parse_choice_not_int valid text :
  py_int W (str_strip W text) = None → parse_choice W valid text = None.
Proof. unfold parse_choice. by intros ->. Qed.

Lemma parse_choice_zero valid text :
  py_int W (str_strip W text) = Some 0 → parse_choice W valid text = None.
Proof. unfold parse_choice. by intros ->. Qed.

Lemma parse_choice_in_range valid text k :
  py_int W (str_strip W text) = Some k →
  1 ≤ k ≤ Z.of_nat (length valid) →
  parse_choice W valid text = valid !! Z.to_nat (k - 1)
  ∧ is_Some (valid !! Z.to_nat (k - 1)).
Proof.
  unfold parse_choice. intros -> Hk.
  destruct (k =? 0) eqn:E0; [lia |].
  destruct (0 <=? k - 1) eqn:E1; [| lia].
  destruct (k - 1 <? Z.of_nat (length valid)) eqn:E2; [| lia].
  split; [done |]. apply lookup_lt_is_Some. lia.
Qed.

Lemma parse_choice_out_of_range valid text k :
  py_int W (str_strip W text) = Some k →
  k < 1 ∨ Z.of_nat (length valid) < k →
  parse_choice W valid text = None.
Proof.
  unfold parse_choice. intros -> Hk.
  destruct (k =? 0) eqn:E0; [done |].
  destruct (0 <=? k - 1) eqn:E1; [| done].
  destruct (k - 1 <? Z.of_nat (length valid)) eqn:E2; [lia | done].
Qed.

End Selector.




(** ** Image fetch and validate *)

Lemma of_nat_inj i j : PyStr.of_nat i = PyStr.of_nat j → i = j.
Proof.
  unfold PyStr.of_nat. intros H.
  apply (f_equal NilEmpty.uint_of_string) in H.
  rewrite !NilEmpty.usu in H. injection H as H.
  apply (f_equal Nat.of_uint) in H.
  by rewrite !DecimalNat.Unsigned.of_to in H.
Qed.

Lemma of_nat_digits i : PyStr.all_chars PyStr.is_ascii_digit (PyStr.of_nat i) = true.
Proof.
  unfold PyStr.of_nat. generalize (Nat.to_uint i). intros d.
  induction d as [|d IH|d IH|d IH|d IH|d IH|d IH|d IH|d IH|d IH|d IH];
    simpl; [done | by rewrite IH ..].
Qed.

(** two runs of digits followed by a period agree when the whole strings do *)
Lemma digits_before_dot a : ∀ b r r',
  PyStr.all_chars PyStr.is_ascii_digit a = true →
  PyStr.all_chars PyStr.is_ascii_digit b = true →
  a +:+ String "." r = b +:+ String "." r' → a = b.
Proof.
  induction a as [|c a IH]; intros [|c' b] r r' Ha Hb Heq; simpl in *.
  - done.
  - injection Heq as <- _. done.
  - injection Heq as -> _. done.
  - injection Heq as <- Heq.
    apply andb_prop in Ha as [_ Ha]. apply andb_prop in Hb as [_ Hb].
    f_equal. by apply (IH b r r').
Qed.

Lemma image_path_inj upc i j r r' :
  image_path upc i (String "." r) = image_path upc j (String "." r') → i = j.
Proof.
  unfold image_path. intros H.
  do 5 apply (inj (String.app _)) in H.
  apply of_nat_inj. eapply digits_before_dot; [apply of_nat_digits .. | exact H].
Qed.

Section Fetch.

Context (W : World) (upc : string).
Hypothesis shape : splitext_shape W.

Lemma ext_or_jpg_dot url e :
  url_ext W url = Some e → ∃ r, ext_or_jpg e = String "." r.
Proof.
  intros H. destruct (shape url e H) as [-> | [r ->]]; by eexists.
Qed.

(** the destinations of two positions differ *)
Lemma image_path_ne i j url url' e e' :
  url_ext W url = Some e → url_ext W url' = Some e' → i ≠ j →
  image_path upc i (ext_or_jpg e) ≠ image_path upc j (ext_or_jpg e').
Proof.
  intros [r ->]%ext_or_jpg_dot [r' ->]%ext_or_jpg_dot Hne Heq.
  by apply Hne, (image_path_inj upc i j r r').
Qed.

(** one iteration returns normally, and what it does to the files *)
Lemma save_one_cases i url saved st :
  ∃ saved' st',
    save_one W upc i url saved st = (Ret saved', st')
    ∧ redis st' = redis st
    ∧ ((saved' = saved ∧ files st' = files st
        ∧ ∀ e, url_ext W url = Some e →
               has_content (files st) (image_path upc i (ext_or_jpg e)) = false)
       ∨ (∃ e, url_ext W url = Some e
               ∧ saved' = (saved ++ [image_path upc i (ext_or_jpg e)])%list
               ∧ ((st' = st
                   ∧ has_content (files st) (image_path upc i (ext_or_jpg e)) = true)
                  ∨ (∃ c, files st'
                          = <[image_path upc i (ext_or_jpg e) := c]> (files st))))).
Proof.
  unfold save_one. destruct (url_ext W url) as [e|] eqn:He.
  2: { exists saved, st. split; [done |]. split; [done |]. left. done. }
  unfold mbind, M_bind, bind, get_state, modify, mret, M_ret, ret. cbv zeta.
  destruct (has_content (files st) (image_path upc i (ext_or_jpg e))) eqn:Hc.
  { eexists _, st. split; [done |]. split; [done |]. right. exists e.
    split; [done |]. split; [done |]. left. done. }
  destruct (http_get W i url) as [content|].
  2: { eexists saved, _. split; [done |]. split; [done |]. left.
       split; [done |]. split; [done |]. by intros e' [= <-]. }
  destruct (pil_open W content && pil_verify W content);
    [destruct (can_write W (image_path upc i (ext_or_jpg e))) |].
  - eexists _, _. split; [done |]. split; [done |]. right. exists e.
    split; [done |]. split; [done |]. right. by exists content.
  - eexists saved, _. split; [done |]. split; [done |]. left.
    split; [done |]. split; [done |]. by intros e' [= <-].
  - eexists saved, _. split; [done |]. split; [done |]. left.
    split; [done |]. split; [done |]. by intros e' [= <-].
Qed.

(** the loop only writes at the destinations of its own positions *)
Lemma save_loop_frame urls : ∀ i saved st path,
  (∀ k url e, urls !! k = Some url → url_ext W url = Some e →
              image_path upc (i + k) (ext_or_jpg e) ≠ path) →
  files (save_loop W upc i urls saved st).2 !! path = files st !! path.
Proof.
  induction urls as [|url rest IH]; intros i saved st path Hne; [done |].
  simpl. unfold mbind, M_bind, bind.
  destruct (save_one_cases i url saved st)
    as (saved' & st' & -> & _ & [(_ & Hfs & _) | (e & He & _ & [[-> _] | [c Hfs]])]).
  - rewrite IH, Hfs; [done |]. intros k u e Hk He.
    replace (S i + k)%nat with (i + S k)%nat by lia. by apply (Hne (S k) u e).
  - apply IH. intros k u e' Hk He'.
    replace (S i + k)%nat with (i + S k)%nat by lia. by apply (Hne (S k) u e').
  - rewrite IH, Hfs.
    + apply lookup_insert_ne. specialize (Hne 0%nat url e eq_refl He).
      by rewrite Nat.add_0_r in Hne.
    + intros k u e' Hk He'.
      replace (S i + k)%nat with (i + S k)%nat by lia. by apply (Hne (S k) u e').
Qed.

(** when every destination holds a file before the loop, the loop returns
    the destinations and changes nothing *)
Lemma save_loop_stored urls : ∀ i saved st,
  all_stored W upc i urls (files st) →
  save_loop W upc i urls saved st
  = (Ret (saved ++ all_paths W upc i urls)%list, st).
Proof.
  induction urls as [|url rest IH]; intros i saved st Hall; simpl.
  { by rewrite app_nil_r. }
  destruct (Hall 0%nat url eq_refl) as (e & He & Hc).
  rewrite Nat.add_0_r in Hc.
  unfold mbind, M_bind, bind, save_one. rewrite He.
  unfold mbind, M_bind, bind, get_state. cbv zeta. rewrite Hc.
  unfold mret, M_ret, ret. rewrite IH.
  - by rewrite <- app_assoc.
  - intros k u Hk. replace (S i + k)%nat with (i + S k)%nat by lia.
    by apply (Hall (S k) u).
Qed.

(** when every destination holds a file after the loop, the loop returned
    the destinations *)
Lemma save_loop_complete urls : ∀ i saved st,
  all_stored W upc i urls (files (save_loop W upc i urls saved st).2) →
  (save_loop W upc i urls saved st).1
  = Ret (saved ++ all_paths W upc i urls)%list.
Proof.
  induction urls as [|url rest IH]; intros i saved st Hall; simpl in *.
  { by rewrite app_nil_r. }
  unfold mbind, M_bind, bind in *.
  destruct (Hall 0%nat url eq_refl) as (e & He & Hc).
  rewrite Nat.add_0_r in Hc. rewrite He.
  assert (Hrest : ∀ st1 saved1,
    save_one W upc i url saved st = (Ret saved1, st1) →
    all_stored W upc (S i) rest (files (save_loop W upc (S i) rest saved1 st1).2)).
  { intros st1 saved1 E k u Hk. rewrite E in Hall.
    replace (S i + k)%nat with (i + S k)%nat by lia. by apply (Hall (S k) u). }
  destruct (save_one_cases i url saved st)
    as (saved' & st' & E & _ & [(_ & Hfs & Hno) | (e' & He' & -> & _)]).
  - exfalso. rewrite E in Hc. simpl in Hc.
    specialize (Hno e He). unfold has_content in Hc, Hno.
    rewrite save_loop_frame, Hfs in Hc; [congruence |].
    intros k u e'' Hk He''. apply (image_path_ne _ _ u url e'' e He'' He). lia.
  - rewrite E. rewrite IH by (by apply Hrest).
    assert (e' = e) as -> by congruence. by rewrite <- app_assoc.
Qed.

End Fetch.

Lemma last_ext_shape s : Demo.last_ext s = "" ∨ ∃ r, Demo.last_ext s = String "." r.
Proof.
  induction s as [|c s IH]; simpl; [by left |].
  destruct (Demo.last_ext s) as [|c' e'] eqn:E.
  - destruct (Ascii.eqb c ".") eqn:Hc; simpl; [| by left].
    apply Ascii.eqb_eq in Hc as ->. destruct (negb (Demo.has_slash s)); [| by left].
    right. by eexists.
  - destruct IH as [? | IH]; [done |]. by right.
Qed.

Lemma demo_splitext_shape text : splitext_shape (Demo.world text).
Proof.
  intros [| | | s | |] e; simpl; try done.
  intros [= <-]. apply last_ext_shape.
Qed.

Lemma all_paths_ext W1 W2 upc urls : ∀ i,
  (∀ url, url_ext W2 url = url_ext W1 url) →
  all_paths W2 upc i urls = all_paths W1 upc i urls.
Proof.
  induction urls as [|u us IH]; intros i Hext; simpl; [done |].
  rewrite Hext. destruct (url_ext W1 u); by rewrite IH.
Qed.

(** *** The two directories *)

Lemma startswith_app p q s : PyStr.startswith (p +:+ q) (p +:+ q +:+ s) = true.
Proof.
  induction p as [|a p IH]; simpl.
  - induction q as [|b q IH]; simpl; [done |]. by rewrite Ascii.eqb_refl.
  - by rewrite Ascii.eqb_refl.
Qed.

Lemma string_app_assoc a b c : (a +:+ b) +:+ c = a +:+ b +:+ c.
Proof.
  induction a as [|x a IH]; [done |].
  change (String x ((a +:+ b) +:+ c) = String x (a +:+ b +:+ c)). by rewrite IH.
Qed.

(** a path with a file below it is a directory *)
Lemma file_below_is_dir st d rest c :
  files st !! (d +:+ "/" +:+ rest) = Some c → is_dir st d = true.
Proof.
  intros H. unfold is_dir. apply orb_true_iff. right.
  apply existsb_exists. exists (d +:+ "/" +:+ rest). split.
  - apply in_map_iff. exists (d +:+ "/" +:+ rest, c). split; [done |].
    by apply list_elem_of_In, elem_of_map_to_list.
  - apply startswith_app.
Qed.

(** a stored image lies below the two directories of its key *)
Lemma stored_is_dir st upc i e :
  has_content (files st) (image_path upc i e) = true →
  is_dir st "static/upc_images" = true ∧ is_dir st (upc_dir upc) = true.
Proof.
  unfold has_content. destruct (files st !! image_path upc i e) as [c|] eqn:E;
    [intros _ | done].
  split.
  - by apply (file_below_is_dir st "static/upc_images"
                (upc +:+ "/" +:+ upc +:+ "_" +:+ PyStr.of_nat i +:+ e) c).
  - apply (file_below_is_dir st (upc_dir upc)
             (upc +:+ "_" +:+ PyStr.of_nat i +:+ e) c).
    rewrite <- E. f_equal; unfold image_path, upc_dir;
      by rewrite string_app_assoc.
Qed.

Lemma set_dirs_id st : set_dirs (λ ds, ds) st = st.
Proof. by destruct st. Qed.

Lemma mkdir_is_dir W d st : is_dir st d = true → mkdir W d st = (Ret tt, st).
Proof.
  intros H. unfold mkdir, mbind, M_bind, bind, get_state. cbv beta iota.
  by rewrite H.
Qed.

Lemma mkdir_base_is_dir W st :
  is_dir st "static/upc_images" = true → mkdir_base W st = (Ret tt, st).
Proof.
  intros H. unfold mkdir_base, mbind, M_bind, bind, get_state. cbv beta iota.
  by rewrite H.
Qed.

Lemma is_dir_mono st f d :
  (∀ ds : gset string, ds ⊆ f ds) →
  is_dir st d = true → is_dir (set_dirs f st) d = true.
Proof.
  intros Hf. unfold is_dir. simpl. rewrite !orb_true_iff, !bool_decide_eq_true.
  intros [H | H]; [left; by apply Hf | by right].
Qed.

(** [mkdir] touches the directories only and removes none; it leaves [d] a
    directory, or raises [OSError], and that only where [d] was none *)
Lemma mkdir_cases W d st :
  ∃ r f, mkdir W d st = (r, set_dirs f st)
         ∧ (∀ ds : gset string, ds ⊆ f ds)
         ∧ ((r = Ret tt ∧ is_dir (set_dirs f st) d = true)
            ∨ (r = Raise OSError ∧ is_dir st d = false)).
Proof.
  unfold mkdir, mbind, M_bind, bind, get_state, modify, raise, mret, M_ret, ret.
  cbv beta iota. destruct (is_dir st d) eqn:Hd.
  { exists (Ret tt), (λ ds, ds). rewrite set_dirs_id.
    split; [done |]. split; [done | by left]. }
  destruct (bool_decide (is_Some (files st !! d))).
  { exists (Raise OSError), (λ ds, ds). rewrite set_dirs_id.
    split; [done |]. split; [done | by right]. }
  destruct (can_mkdir W d).
  - exists (Ret tt), (λ ds, {[d]} ∪ ds). split; [done |]. split.
    + intros ds x Hx. apply elem_of_union. by right.
    + left. split; [done |]. unfold is_dir. simpl.
      apply orb_true_iff. left. apply bool_decide_eq_true.
      apply elem_of_union. left. by apply elem_of_singleton.
  - exists (Raise OSError), (λ ds, ds). rewrite set_dirs_id.
    split; [done |]. split; [done | by right].
Qed.

Lemma mkdir_base_cases W st :
  ∃ r f, mkdir_base W st = (r, set_dirs f st)
         ∧ (∀ ds : gset string, ds ⊆ f ds)
         ∧ ((r = Ret tt ∧ is_dir (set_dirs f st) "static/upc_images" = true)
            ∨ (r = Raise OSError ∧ is_dir st "static/upc_images" = false)).
Proof.
  destruct (is_dir st "static/upc_images") eqn:Hb.
  { exists (Ret tt), (λ ds, ds).
    rewrite set_dirs_id, mkdir_base_is_dir by done.
    split; [done |]. split; [done | by left]. }
  unfold mkdir_base, mbind, M_bind, bind, get_state. cbv beta iota. rewrite Hb.
  destruct (mkdir_cases W "static" st) as (r & f & -> & Hf & [[-> _] | [-> _]]).
  - destruct (mkdir_cases W "static/upc_images" (set_dirs f st))
      as (r & g & -> & Hg & [[-> Hd] | [-> _]]).
    + exists (Ret tt), (λ ds, g (f ds)). split; [done |].
      split; [intros ds; etrans; [apply Hf | apply Hg] |]. by left.
    + exists (Raise OSError), (λ ds, g (f ds)). split; [done |].
      split; [intros ds; etrans; [apply Hf | apply Hg] |]. by right.
  - exists (Raise OSError), f. split; [done |]. split; [done | by right].
Qed.

Lemma save_product_images_truthy W upc image_urls st :
  Py.truthy image_urls = true →
  save_product_images W upc image_urls st
  = match mkdir_base W st with
    | (Ret _, st1) =>
        match mkdir W (upc_dir upc) st1 with
        | (Ret _, st2) => save_all W upc image_urls st2
        | (Raise e, st2) => (Raise e, st2)
        end
    | (Raise e, st1) => (Raise e, st1)
    end.
Proof. intros Ht. unfold save_product_images. by rewrite Ht. Qed.

(** on a non-empty argument, the function first makes the two directories,
    which touches nothing else and fails only with [OSError] where one of
    them is missing, and then goes through the URLs *)
Lemma save_product_images_mkdirs W upc image_urls st :
  Py.truthy image_urls = true →
  ∃ f,
    (save_product_images W upc image_urls st
     = save_all W upc image_urls (set_dirs f st)
     ∧ is_dir (set_dirs f st) "static/upc_images" = true
     ∧ is_dir (set_dirs f st) (upc_dir upc) = true)
    ∨ (save_product_images W upc image_urls st = (Raise OSError, set_dirs f st)
       ∧ (is_dir st "static/upc_images" = false
          ∨ is_dir st (upc_dir upc) = false)).
Proof.
  intros Ht. rewrite (save_product_images_truthy W upc image_urls st Ht).
  destruct (mkdir_base_cases W st) as (r & f & -> & Hf & [[-> Hb] | [-> Hb]]).
  2: { exists f. right. split; [done | by left]. }
  destruct (mkdir_cases W (upc_dir upc) (set_dirs f st))
    as (r & g & -> & Hg & [[-> Hd] | [-> Hd]]).
  - exists (λ ds, g (f ds)). left. split; [done |]. split; [| done].
    by apply (is_dir_mono (set_dirs f st) g).
  - exists (λ ds, g (f ds)). right. split; [done |].
    destruct (is_dir st "static/upc_images") eqn:Hb0; [right | by left].
    destruct (is_dir st (upc_dir upc)) eqn:Hd0; [| done].
    by rewrite (is_dir_mono st f) in Hd.
Qed.

Lemma save_product_images_dirs_exist W upc image_urls st :
  Py.truthy image_urls = true →
  is_dir st "static/upc_images" = true →
  is_dir st (upc_dir upc) = true →
  save_product_images W upc image_urls st = save_all W upc image_urls st.
Proof.
  intros Ht Hb Hd. unfold save_product_images. rewrite Ht.
  unfold mbind, M_bind, bind. cbn [negb]. cbv beta iota.
  by rewrite mkdir_base_is_dir, mkdir_is_dir.
Qed.

Lemma truthy_iter_nonempty v urls :
  Py.truthy v = true → Py.iter v = Some urls → urls ≠ [].
Proof.
  destruct v as [| b | n | [|c s] | [|x l] | [|kv kvs]]; simpl; try done;
    by intros _ [= <-].
Qed.

Lemma falsy_iter_empty v urls :
  Py.truthy v = false → Py.iter v = Some urls → urls = [].
Proof.
  destruct v as [| b | n | [|c s] | [|x l] | [|kv kvs]]; simpl; try done;
    by intros _ [= <-].
Qed.



(** ** Batch submission *)

Lemma elem_of_unique_from l : ∀ seen x,
  x ∈ unique_from seen l ↔ x ∈ l ∧ x ∉ seen.
Proof.
  induction l as [|y l IH]; intros seen x; simpl.
  - rewrite elem_of_nil. tauto.
  - destruct (decide (y ∈ seen)) as [Hy|Hy].
    + rewrite IH, elem_of_cons. split; [tauto |].
      intros [[-> | Hx] Hs]; [done | tauto].
    + rewrite !elem_of_cons, IH, elem_of_union, elem_of_singleton.
      split.
      * intros [-> | [Hx Hs]]; [tauto |]. split; [tauto |]. tauto.
      * intros [[-> | Hx] Hs]; [tauto |].
        destruct (decide (x = y)) as [-> | Hne]; [tauto |]. right. tauto.
Qed.

Lemma NoDup_unique_from l : ∀ seen, NoDup (unique_from seen l).
Proof.
  induction l as [|y l IH]; intros seen; simpl; [constructor |].
  destruct (decide (y ∈ seen)); [apply IH |].
  apply NoDup_cons. split; [| apply IH].
  rewrite elem_of_unique_from, elem_of_union, elem_of_singleton. tauto.
Qed.

Lemma elem_of_unique column x : x ∈ unique column ↔ x ∈ column.
Proof.
  unfold unique. rewrite elem_of_unique_from. split; [tauto |].
  intros H. split; [done |]. apply not_elem_of_empty.
Qed.

Lemma elem_of_list_filter_bool {A} (f : A → bool) l x :
  x ∈ List.filter f l ↔ x ∈ l ∧ f x = true.
Proof. rewrite !list_elem_of_In. apply filter_In. Qed.

Lemma NoDup_list_filter_bool {A} (f : A → bool) l :
  NoDup l → NoDup (List.filter f l).
Proof. rewrite !NoDup_ListNoDup. apply List.NoDup_filter. Qed.

Lemma filter_split_length {A} (f : A → bool) l :
  (length (List.filter f l) + length (List.filter (λ x, negb (f x)) l))%nat
  = length l.
Proof.
  induction l as [|x l IH]; simpl; [done |].
  destruct (f x); simpl; lia.
Qed.

(** the test of the handler is the freshness of the specification *)
Lemma to_process_fresh W st k : to_process W st k = true ↔ fresh_key W st k.
Proof.
  unfold to_process, fresh_key, redis_exists.
  rewrite !andb_true_iff, negb_true_iff, bool_decide_eq_false.
  destruct (redis st !! cache_key k) as [v|]; simpl.
  - split; [intros [[? _] _]; done | intros (_ & ? & _); done].
  - tauto.
Qed.

Lemma total_is_set_size column :
  length (unique column) = size (unique_keys column).
Proof.
  unfold unique_keys.
  rewrite <- (size_list_to_set (C:=gset string) (unique column))
    by apply NoDup_unique_from.
  f_equal. apply set_eq. intros x.
  by rewrite !elem_of_list_to_set, elem_of_unique.
Qed.

Lemma queued_is_set_size W st column :
  length (List.filter (to_process W st) (unique column))
  = size (new_keys W st column).
Proof.
  unfold new_keys, unique_keys.
  rewrite <- (size_list_to_set (C:=gset string))
    by apply NoDup_list_filter_bool, NoDup_unique_from.
  f_equal. apply set_eq. intros x.
  rewrite elem_of_filter, !elem_of_list_to_set, elem_of_list_filter_bool,
    elem_of_unique, to_process_fresh.
  tauto.
Qed.

(** starting the jobs of a list of keys *)
Lemma spawn_all l : ∀ st,
  redis (foldl (λ s upc, spawn upc s) st l) = redis st
  ∧ files (foldl (λ s upc, spawn upc s) st l) = files st
  ∧ calls (foldl (λ s upc, spawn upc s) st l) = calls st
  ∧ threads (foldl (λ s upc, spawn upc s) st l) = (threads st ++ l)%list
  ∧ processing_upcs (foldl (λ s upc, spawn upc s) st l)
    = list_to_set l ∪ processing_upcs st.
Proof.
  induction l as [|x l IH]; intros st; simpl.
  - rewrite app_nil_r. repeat split.
    apply set_eq. intros k. rewrite elem_of_union, elem_of_empty. tauto.
  - destruct (IH (spawn x st)) as (-> & -> & -> & -> & ->). simpl.
    repeat split; [by rewrite <- app_assoc |].
    apply set_eq. intros k. rewrite !elem_of_union. tauto.
Qed.

(** an accepted upload: the keys are the cells of the [upc] column as
    [astype(str)] renders them *)
Lemma batch_accepted W name column st :
  PyStr.truthy name = true →
  PyStr.endswith ".csv" name = true →
  process_batch W (csv_upload name column) st
  = (mkResponse 202
       (batch_report (unique (astype_str column))
          (List.filter (to_process W st) (unique (astype_str column)))),
     foldl (λ s upc, spawn upc s) st
       (List.filter (to_process W st) (unique (astype_str column)))).
Proof. intros Hn Hc. unfold process_batch, csv_upload. simpl. by rewrite Hn, Hc. Qed.

(** C7, the batch of the specification. A file whose [upc] rows are 001, 001
    and 002 is read by [pd.read_csv] as the integer column 1, 1, 2, and
    [astype(str)] renders it as the keys 1 and 2: the leading zeros are gone
    before any key is looked at. With 002 cached (and nothing known under 1
    or 2) the handler therefore reports total 2, queued 2, ignored 0, and
    starts jobs for the keys 1 and 2; the cached 002 is never consulted. *)
Theorem C7_leading_zeros_are_lost (W : World) (name : string) (st : state) :
  PyStr.truthy name = true →
  PyStr.endswith ".csv" name = true →
  str_isdigit W "1" = true →
  str_isdigit W "2" = true →
  redis st !! cache_key "1" = None →
  redis st !! cache_key "2" = None →
  "1" ∉ processing_upcs st →
  "2" ∉ processing_upcs st →
  astype_str (SeriesInt [1; 1; 2]) = ["1"; "1"; "2"]
  ∧ status_code (process_batch W (csv_upload name (SeriesInt [1; 1; 2])) st).1
    = 202
  ∧ field "total_upcs_in_file"
      (process_batch W (csv_upload name (SeriesInt [1; 1; 2])) st).1
    = Some (JNum 2)
  ∧ field "upcs_queued"
      (process_batch W (csv_upload name (SeriesInt [1; 1; 2])) st).1
    = Some (JNum 2)
  ∧ field "upcs_ignored_cached"
      (process_batch W (csv_upload name (SeriesInt [1; 1; 2])) st).1
    = Some (JNum 0)
  ∧ (process_batch W (csv_upload name (SeriesInt [1; 1; 2])) st).2
    = spawn "2" (spawn "1" st).
Proof.
  intros Hn Hc H1 H2 Hr1 Hr2 Hp1 Hp2.
  rewrite (batch_accepted W name _ st Hn Hc).
  change (astype_str (SeriesInt [1; 1; 2])) with ["1"; "1"; "2"].
  assert (Hu : unique ["1"; "1"; "2"] = ["1"; "2"]) by reflexivity.
  rewrite Hu.
  assert (Ht1 : to_process W st "1" = true).
  { apply to_process_fresh. by repeat split. }
  assert (Ht2 : to_process W st "2" = true).
  { apply to_process_fresh. by repeat split. }
  simpl List.filter. rewrite Ht1, Ht2. by repeat split.
Qed.

(** The file of the specification as read, on a cache that holds 002. *)
Lemma C7_leading_zeros_are_lost_witness :
  (PyStr.truthy "keys.csv" = true
   ∧ PyStr.endswith ".csv" "keys.csv" = true
   ∧ str_isdigit Demo.W0 "1" = true
   ∧ str_isdigit Demo.W0 "2" = true
   ∧ is_Some (redis Runs.cached_002 !! cache_key "002")
   ∧ redis Runs.cached_002 !! cache_key "1" = None
   ∧ redis Runs.cached_002 !! cache_key "2" = None
   ∧ ("1" ∉ processing_upcs Runs.cached_002)
   ∧ ("2" ∉ processing_upcs Runs.cached_002))
  ∧ Runs.rows_001_001_002 = SeriesInt [1; 1; 2]
  ∧ field "upcs_queued"
      (process_batch Demo.W0 (csv_upload "keys.csv" Runs.rows_001_001_002)
         Runs.cached_002).1
    = Some (JNum 2)
  ∧ field "upcs_ignored_cached"
      (process_batch Demo.W0 (csv_upload "keys.csv" Runs.rows_001_001_002)
         Runs.cached_002).1
    = Some (JNum 0)
  ∧ threads
      (process_batch Demo.W0 (csv_upload "keys.csv" Runs.rows_001_001_002)
         Runs.cached_002).2
    = ["1"; "2"].
Proof.
  assert (Hno : ∀ k : string, k ∉ processing_upcs Runs.cached_002).
  { intros k. apply not_elem_of_empty. }
  split.
  { repeat split; try reflexivity; [by eexists | apply Hno | apply Hno]. }
  split; [reflexivity |].
  change Runs.rows_001_001_002 with (SeriesInt [1; 1; 2]).
  destruct (C7_leading_zeros_are_lost Demo.W0 "keys.csv" Runs.cached_002)
    as (_ & _ & _ & Hqueued & Hignored & Hstate);
    [reflexivity | reflexivity | reflexivity | reflexivity | reflexivity
    | reflexivity | apply Hno | apply Hno |].
  split; [exact Hqueued |]. split; [exact Hignored |].
  rewrite Hstate. reflexivity.
Defined.

(** The counts of an accepted batch, over the keys as the column renders
    them: total = the number of distinct keys; queued = the number of distinct
    keys that are valid, not cached and not in flight; ignored = total -
    queued. Each queued key is put in flight and its job started, once. *)
Theorem batch_counts (W : World) (name : string) (column : series)
    (st : state) :
  PyStr.truthy name = true →
  PyStr.endswith ".csv" name = true →
  status_code (process_batch W (csv_upload name column) st).1 = 202
  ∧ field "total_upcs_in_file" (process_batch W (csv_upload name column) st).1
    = Some (JNum (Z.of_nat (size (unique_keys (astype_str column)))))
  ∧ field "upcs_queued" (process_batch W (csv_upload name column) st).1
    = Some (JNum (Z.of_nat (size (new_keys W st (astype_str column)))))
  ∧ field "upcs_ignored_cached" (process_batch W (csv_upload name column) st).1
    = Some (JNum (Z.of_nat (size (unique_keys (astype_str column)))
                  - Z.of_nat (size (new_keys W st (astype_str column)))))
  ∧ processing_upcs (process_batch W (csv_upload name column) st).2
    = new_keys W st (astype_str column) ∪ processing_upcs st
  ∧ ∃ queued,
      threads (process_batch W (csv_upload name column) st).2
      = (threads st ++ queued)%list
      ∧ NoDup queued
      ∧ (∀ k, k ∈ queued ↔ k ∈ new_keys W st (astype_str column)).
Proof.
  intros Hn Hc. rewrite (batch_accepted W name column st Hn Hc).
  simpl fst. simpl snd. set (keys := astype_str column).
  destruct (spawn_all (List.filter (to_process W st) (unique keys)) st)
    as (_ & _ & _ & Hth & Hpr).
  assert (Hq : ∀ k, k ∈ List.filter (to_process W st) (unique keys)
                    ↔ k ∈ new_keys W st keys).
  { intros k. unfold new_keys, unique_keys.
    rewrite elem_of_filter, elem_of_list_to_set, elem_of_list_filter_bool,
      elem_of_unique, to_process_fresh. tauto. }
  split; [done |].
  unfold field, batch_report. simpl.
  rewrite total_is_set_size, queued_is_set_size.
  repeat (split; [done |]). split.
  - rewrite Hpr. f_equal. apply set_eq. intros k.
    by rewrite elem_of_list_to_set, Hq.
  - exists (List.filter (to_process W st) (unique keys)).
    split; [done |]. split; [| done].
    apply NoDup_list_filter_bool, NoDup_unique_from.
Qed.

(** A file whose rows are 123, 123 and 456, with 456 cached. *)
Lemma batch_counts_witness :
  (PyStr.truthy "keys.csv" = true ∧ PyStr.endswith ".csv" "keys.csv" = true)
  ∧ astype_str Runs.rows_123_123_456 = ["123"; "123"; "456"]
  ∧ status_code
      (process_batch Demo.W0 (csv_upload "keys.csv" Runs.rows_123_123_456)
         Runs.cached_456).1
    = 202
  ∧ field "total_upcs_in_file"
      (process_batch Demo.W0 (csv_upload "keys.csv" Runs.rows_123_123_456)
         Runs.cached_456).1
    = Some (JNum 2)
  ∧ field "upcs_queued"
      (process_batch Demo.W0 (csv_upload "keys.csv" Runs.rows_123_123_456)
         Runs.cached_456).1
    = Some (JNum 1)
  ∧ field "upcs_ignored_cached"
      (process_batch Demo.W0 (csv_upload "keys.csv" Runs.rows_123_123_456)
         Runs.cached_456).1
    = Some (JNum 1).
Proof.
  split; [split; reflexivity |]. split; [reflexivity |].
  destruct (batch_counts Demo.W0 "keys.csv" Runs.rows_123_123_456
              Runs.cached_456)
    as (Hcode & Htotal & Hqueued & Hignored & _); [reflexivity | reflexivity |].
  split; [exact Hcode |].
  split; [rewrite Htotal; vm_compute; reflexivity |].
  split; [rewrite Hqueued; vm_compute; reflexivity |].
  rewrite Hignored. vm_compute. reflexivity.
Defined.

(** C10. In an accepted batch, a key that [str.isdigit] rejects does not make
    the request fail: the answer is 202 [batch_processing_queued] without an
    error field, the key is not among the started jobs and is not added to
    the in-flight set, and it is one of the distinct keys counted as ignored. *)
Theorem C10_invalid_key_is_ignored (W : World) (name : string)
    (column : series) (st : state) (k : string) :
  PyStr.truthy name = true →
  PyStr.endswith ".csv" name = true →
  k ∈ astype_str column →
  str_isdigit W k = false →
  status_code (process_batch W (csv_upload name column) st).1 = 202
  ∧ field "status" (process_batch W (csv_upload name column) st).1
    = Some (JStr "batch_processing_queued")
  ∧ field "error" (process_batch W (csv_upload name column) st).1 = None
  ∧ (∃ queued,
       threads (process_batch W (csv_upload name column) st).2
       = (threads st ++ queued)%list
       ∧ k ∉ queued)
  ∧ (k ∈ processing_upcs (process_batch W (csv_upload name column) st).2
     ↔ k ∈ processing_upcs st)
  ∧ (∃ ignored,
       ignored = List.filter (λ upc, negb (to_process W st upc))
                   (unique (astype_str column))
       ∧ k ∈ ignored
       ∧ field "upcs_ignored_cached"
           (process_batch W (csv_upload name column) st).1
         = Some (JNum (Z.of_nat (length ignored)))).
Proof.
  intros Hn Hc Hk Hd. rewrite (batch_accepted W name column st Hn Hc).
  simpl fst. simpl snd. set (keys := astype_str column) in *.
  destruct (spawn_all (List.filter (to_process W st) (unique keys)) st)
    as (_ & _ & _ & Hth & Hpr).
  assert (Hnot : to_process W st k = false).
  { unfold to_process. rewrite Hd. apply andb_false_r. }
  assert (Hq : k ∉ List.filter (to_process W st) (unique keys)).
  { rewrite elem_of_list_filter_bool. intros [_ H]. congruence. }
  split; [done |]. split; [done |]. split; [done |].
  split; [by eexists |]. split.
  - rewrite Hpr, elem_of_union, elem_of_list_to_set. tauto.
  - eexists. split; [done |]. split.
    + rewrite elem_of_list_filter_bool, elem_of_unique, Hnot. done.
    + unfold field, batch_report. simpl. do 2 f_equal.
      pose proof (filter_split_length (to_process W st) (unique keys)). lia.
Qed.

(** A file whose rows are 001, 12a and 001: the column is read as text. *)
Lemma C10_invalid_key_is_ignored_witness :
  (PyStr.truthy "keys.csv" = true
   ∧ PyStr.endswith ".csv" "keys.csv" = true
   ∧ "12a" ∈ astype_str Runs.rows_001_12a_001
   ∧ str_isdigit Demo.W0 "12a" = false)
  ∧ astype_str Runs.rows_001_12a_001 = ["001"; "12a"; "001"]
  ∧ status_code
      (process_batch Demo.W0 (csv_upload "keys.csv" Runs.rows_001_12a_001)
         Demo.empty_state).1
    = 202
  ∧ field "upcs_ignored_cached"
      (process_batch Demo.W0 (csv_upload "keys.csv" Runs.rows_001_12a_001)
         Demo.empty_state).1
    = Some (JNum 1)
  ∧ threads
      (process_batch Demo.W0 (csv_upload "keys.csv" Runs.rows_001_12a_001)
         Demo.empty_state).2
    = ["001"].
Proof.
  assert (Hin : "12a" ∈ astype_str Runs.rows_001_12a_001).
  { apply list_elem_of_further, list_elem_of_here. }
  split; [repeat split; [exact Hin] |]. split; [reflexivity |].
  destruct (C10_invalid_key_is_ignored Demo.W0 "keys.csv" Runs.rows_001_12a_001
              Demo.empty_state "12a")
    as (Hcode & _ & _ & _ & _ & ignored & -> & _ & Hcount);
    [reflexivity | reflexivity | exact Hin | reflexivity |].
  split; [exact Hcode |].
  split; [rewrite Hcount; vm_compute; reflexivity |].
  vm_compute. reflexivity.
Defined.

Lemma C1_in_flight_is_not_restarted_witness :
  (str_isdigit Demo.W0 "5" = true
   ∧ "5" ∈ processing_upcs Runs.in_flight_5
   ∧ redis Runs.in_flight_5 !! cache_key "5" = None)
  ∧ process_upc Demo.W0 "5" Runs.in_flight_5 = (already_processing "5", Runs.in_flight_5).
Proof.
  assert (Hin : "5" ∈ processing_upcs Runs.in_flight_5).
  { simpl. apply elem_of_union_l, elem_of_singleton. reflexivity. }
  split; [split; [reflexivity | split; [exact Hin | reflexivity]] |].
  apply (C1_in_flight_is_not_restarted Demo.W0 "5" Runs.in_flight_5);
    [reflexivity | exact Hin | reflexivity].
Defined.

Lemma C8_cached_short_circuits_witness :
  (str_isdigit Demo.W0 "002" = true
   ∧ redis Runs.cached_002 !! cache_key "002"
     = Some (MiniJson.dumps (JObj [("upc", JStr "002"); ("cached", JBool false)]), 30)
   ∧ MiniJson.dumps (JObj [("upc", JStr "002"); ("cached", JBool false)]) ≠ "")
  ∧ process_upc Demo.W0 "002" Runs.cached_002 = (already_cached "002", Runs.cached_002).
Proof.
  split; [split; [reflexivity | split; [reflexivity | discriminate]] |].
  apply (C8_cached_short_circuits Demo.W0 "002" Runs.cached_002
           (MiniJson.dumps (JObj [("upc", JStr "002"); ("cached", JBool false)])) 30);
    [reflexivity | reflexivity | discriminate].
Defined.

(** ** Runs of the job on the three kinds of path *)

(** the lookup succeeds: a result is stored and the key is released *)
Example job_success :
  is_Some (redis Runs.after_job !! cache_key "012345")
  ∧ processing_upcs Runs.after_job = ∅
  ∧ ¬ pipeline_fails Demo.W0 "012345" (spawn "012345" Demo.empty_state).
Proof.
  split; [| split].
  - vm_compute. by eexists.
  - apply set_eq. intros k. unfold Runs.after_job.
    rewrite job_outcome. simpl snd. rewrite release_spec.
    rewrite (preserves_job_body Demo.W0 processing_upcs "012345") by done.
    simpl. rewrite elem_of_union, elem_of_singleton, elem_of_empty. tauto.
  - intros [[H|H] | d H1 H2 | d s H1 H2 | e s H].
    + vm_compute in H. discriminate.
    + vm_compute in H. discriminate.
    + injection H1 as <-. vm_compute in H2. discriminate.
    + injection H1 as <-. vm_compute in H2. discriminate.
    + vm_compute in H. discriminate.
Qed.

(** the lookup fails with a request error *)
Example job_transient_error :
  pipeline_fails Demo.W0 "999" (spawn "999" Demo.empty_state)
  ∧ redis (process_upc_background Demo.W0 "999" (spawn "999" Demo.empty_state)).2 = ∅.
Proof. split; [apply fails_transient; by left | reflexivity]. Qed.

(** the lookup finds no item *)
Example job_no_items :
  pipeline_fails Demo.W0 "404" (spawn "404" Demo.empty_state)
  ∧ redis (process_upc_background Demo.W0 "404" (spawn "404" Demo.empty_state)).2 = ∅.
Proof. split; [by eapply fails_no_items | reflexivity]. Qed.

(** the lookup answers a number: the membership test raises [TypeError] *)
Example job_exception :
  (job_body Demo.W0 "7" (spawn "7" Demo.empty_state)).1 = Raise TypeError
  ∧ pipeline_fails Demo.W0 "7" (spawn "7" Demo.empty_state)
  ∧ (process_upc_background Demo.W0 "7" (spawn "7" Demo.empty_state)).1 = Ret tt
  ∧ redis (process_upc_background Demo.W0 "7" (spawn "7" Demo.empty_state)).2 = ∅.
Proof.
  split; [reflexivity |]. split; [| split; reflexivity].
  by eapply fails_exception.
Qed.

(** ** Single flight *)

Lemma get_product_frame W upc st :
  threads (get_product W upc st).2 = threads st
  ∧ processing_upcs (get_product W upc st).2 = processing_upcs st.
Proof.
  unfold get_product. destruct (invalid_upc W upc); [done |].
  destruct (negb (bytes_truthy (redis_get (cache_key upc) st))); [done |].
  by destruct (json_loads W (default "" (redis_get (cache_key upc) st))).
Qed.

Lemma single_flight_spawn_all l : ∀ st,
  NoDup l → (∀ k, k ∈ l → k ∉ processing_upcs st) →
  single_flight st → single_flight (foldl (λ s upc, spawn upc s) st l).
Proof.
  intros st Hl Hfresh [Hnd Hiff].
  destruct (spawn_all l st) as (_ & _ & _ & Hth & Hpr).
  split.
  - rewrite Hth. apply NoDup_app. split; [done |]. split; [| done].
    intros k Hk Hk'. apply (Hfresh k Hk'). by apply Hiff.
  - intros k. rewrite Hpr, Hth, elem_of_union, elem_of_list_to_set, elem_of_app, Hiff.
    tauto.
Qed.

Lemma single_flight_step st st' : step st st' → single_flight st → single_flight st'.
Proof.
  intros [W Hstep] [Hnd Hiff].
  destruct Hstep as [upc st | upc st | file st | upc st Hin].
  - destruct (get_product_frame W upc st) as [Hth Hpr].
    unfold single_flight. rewrite Hth. split; [done |]. intros k. by rewrite Hpr.
  - unfold process_upc. destruct (invalid_upc W upc); [done |].
    destruct (bytes_truthy (redis_get (cache_key upc) st)); [done |].
    destruct (decide (upc ∈ processing_upcs st)) as [Hin|Hout]; [done |].
    apply (single_flight_spawn_all [upc] st); [| | done].
    + apply NoDup_singleton.
    + by intros k ->%list_elem_of_singleton.
  - unfold process_batch. destruct file as [file|]; [| done].
    destruct (negb (PyStr.truthy (filename file))); [done |].
    destruct (negb (PyStr.endswith ".csv" (filename file))); [done |].
    destruct (read_csv file) as [msg | [column|]]; [done | | done].
    apply single_flight_spawn_all; [| | done].
    + apply NoDup_list_filter_bool, NoDup_unique_from.
    + intros k [_ Hk]%elem_of_list_filter_bool.
      apply to_process_fresh in Hk as (_ & _ & Hk). done.
  - rewrite job_outcome. simpl snd.
    set (st1 := release upc (job_body W upc st).2).
    assert (Hth : threads st1 = threads st).
    { apply (preserves_job_body W threads upc); done. }
    assert (Hpr : ∀ k, k ∈ processing_upcs st1 ↔ k ∈ processing_upcs st ∧ k ≠ upc).
    { intros k. unfold st1. rewrite release_spec.
      by rewrite (preserves_job_body W processing_upcs upc). }
    split.
    + change (threads (finish_thread upc st1))
        with (List.filter (λ k, negb (String.eqb k upc)) (threads st1)).
      apply NoDup_list_filter_bool. by rewrite Hth.
    + intros k.
      change (threads (finish_thread upc st1))
        with (List.filter (λ k, negb (String.eqb k upc)) (threads st1)).
      change (processing_upcs (finish_thread upc st1)) with (processing_upcs st1).
      rewrite Hpr, elem_of_list_filter_bool, Hth, Hiff, negb_true_iff,
        String.eqb_neq.
      done.
Qed.

(** In every state the service reaches, the in-flight set is the set of the
    running jobs and no key has two of them. *)
Lemma reachable_single_flight st : reachable st → single_flight st.
Proof.
  induction 1 as [fs ds rs | st st' _ IH Hstep].
  - split; [constructor |]. intros k. simpl.
    rewrite elem_of_empty, elem_of_nil. done.
  - by apply (single_flight_step st st').
Qed.


(** * Further properties of the handlers and of the pipeline *)

(** ** Read path and key validation *)

Lemma invalid_upc_isdigit W upc : invalid_upc W upc = negb (str_isdigit W upc).
Proof.
  unfold invalid_upc. destruct upc; [| done]. by rewrite isdigit_empty.
Qed.

(** X1. [get_product] touches nothing but the cache entry of its own key: the
    files, the in-flight set, the jobs and the network log are as before,
    the other cache entries too; the state changes only with the 500 answer
    [Invalid cache data], and then the entry of the key is gone. An
    exception of [json.loads] that the handler does not catch leaves the
    state as it was. *)
Theorem get_product_effects (W : World) (upc : string) (st : state) :
  files (get_product W upc st).2 = files st
  ∧ processing_upcs (get_product W upc st).2 = processing_upcs st
  ∧ threads (get_product W upc st).2 = threads st
  ∧ calls (get_product W upc st).2 = calls st
  ∧ (∀ k, k ≠ cache_key upc →
          redis (get_product W upc st).2 !! k = redis st !! k)
  ∧ (∀ r, (get_product W upc st).1 = Ret r → status_code r ≠ 500 →
          (get_product W upc st).2 = st)
  ∧ (∀ r, (get_product W upc st).1 = Ret r → status_code r = 500 →
          r = invalid_cache_data
          ∧ (get_product W upc st).2 = redis_delete (cache_key upc) st
          ∧ redis (get_product W upc st).2 !! cache_key upc = None)
  ∧ (∀ e, (get_product W upc st).1 = Raise e → (get_product W upc st).2 = st).
Proof.
  unfold get_product. destruct (invalid_upc W upc).
  { do 6 (split; [done |]). split; [| done]. by intros r [= <-]. }
  destruct (negb (bytes_truthy (redis_get (cache_key upc) st))).
  { do 6 (split; [done |]). split; [| done]. by intros r [= <-]. }
  destruct (json_loads W (default "" (redis_get (cache_key upc) st))).
  - do 6 (split; [done |]). split; [| done]. by intros r [= <-].
  - simpl. do 4 (split; [done |]).
    split; [intros k Hk; by apply lookup_delete_ne |].
    split; [by intros r [= <-] |]. split; [| done].
    intros r [= <-] _. split; [done |]. split; [done |]. apply lookup_delete_eq.
  - do 6 (split; [done |]). split; done.
Qed.

(** X2. A 200 answer of [get_product] is sound: [str.isdigit] accepts the
    key, the cache holds a non-empty payload for it, the body is that payload
    as [json.loads] decodes it, and nothing changed. *)
Theorem get_product_200_sound (W : World) (upc : string) (st : state)
    (r : response) :
  (get_product W upc st).1 = Ret r →
  status_code r = 200 →
  str_isdigit W upc = true
  ∧ upc ≠ ""
  ∧ (get_product W upc st).2 = st
  ∧ ∃ payload ttl,
      redis st !! cache_key upc = Some (payload, ttl)
      ∧ payload ≠ ""
      ∧ json_loads W payload = Loaded (body r).
Proof.
  unfold get_product. rewrite invalid_upc_isdigit.
  destruct (str_isdigit W upc) eqn:Hd; [| by intros [= <-]]. simpl negb. cbv iota.
  unfold redis_get.
  destruct (redis st !! cache_key upc) as [[payload ttl]|]; [| by intros [= <-]].
  simpl.
  destruct payload as [|c p]; [by intros [= <-] |]. simpl.
  destruct (json_loads W (String c p)) as [v| |e] eqn:Hv; simpl;
    [| by intros [= <-] | done].
  intros [= <-] _. split; [done |]. split.
  { intros ->. by rewrite isdigit_empty in Hd. }
  split; [done |]. by exists (String c p), ttl.
Qed.

Lemma get_product_200_sound_witness :
  (∃ r, (get_product Demo.W0 "012345" Runs.after_job).1 = Ret r
        ∧ status_code r = 200)
  ∧ str_isdigit Demo.W0 "012345" = true
  ∧ (get_product Demo.W0 "012345" Runs.after_job).2 = Runs.after_job.
Proof.
  assert (H : ∃ r, (get_product Demo.W0 "012345" Runs.after_job).1 = Ret r
                   ∧ status_code r = 200).
  { eexists. split; [vm_compute; reflexivity | reflexivity]. }
  split; [exact H |]. destruct H as (r & Hr & Hs).
  destruct (get_product_200_sound Demo.W0 "012345" Runs.after_job r Hr Hs)
    as (Hd & _ & Hst & _).
  split; [exact Hd | exact Hst].
Defined.

(** X3. Both endpoints answer 400 exactly for the keys that [str.isdigit]
    rejects (the empty key is one of them). *)
Theorem status_400_iff_invalid (W : World) (upc : string) (st : state) :
  ((∃ r, (get_product W upc st).1 = Ret r ∧ status_code r = 400)
   ↔ str_isdigit W upc = false)
  ∧ (status_code (process_upc W upc st).1 = 400 ↔ str_isdigit W upc = false)
  ∧ str_isdigit W "" = false.
Proof.
  split; [| split; [| apply isdigit_empty]];
    unfold get_product, process_upc; rewrite invalid_upc_isdigit;
    destruct (str_isdigit W upc); simpl negb; cbv iota.
  - destruct (negb (bytes_truthy (redis_get (cache_key upc) st))).
    { split; [by intros (r & [= <-] & ?) | done]. }
    destruct (json_loads W (default "" (redis_get (cache_key upc) st)));
      (split; [by intros (r & [= <-] & ?) | done]) || (split; [by intros (r & ? & ?) | done]).
  - split; [done |]. intros _. by eexists.
  - destruct (bytes_truthy (redis_get (cache_key upc) st)); [done |].
    by destruct (decide (upc ∈ processing_upcs st)).
  - done.
Qed.

(** ** Processing requests *)

(** X4. [process_upc] never touches the cache, the files or the network; it
    starts at most one job, for its own key, and adds at most that key to the
    in-flight set. *)
Theorem process_upc_effects (W : World) (upc : string) (st : state) :
  redis (process_upc W upc st).2 = redis st
  ∧ files (process_upc W upc st).2 = files st
  ∧ calls (process_upc W upc st).2 = calls st
  ∧ (((process_upc W upc st).2 = st)
     ∨ ((upc ∉ processing_upcs st)
        ∧ threads (process_upc W upc st).2 = (threads st ++ [upc])%list
        ∧ processing_upcs (process_upc W upc st).2 = {[upc]} ∪ processing_upcs st)).
Proof.
  unfold process_upc. destruct (invalid_upc W upc).
  { repeat split; try done. by left. }
  destruct (bytes_truthy (redis_get (cache_key upc) st)).
  { repeat split; try done. by left. }
  destruct (decide (upc ∈ processing_upcs st)) as [Hin|Hout].
  { repeat split; try done. by left. }
  repeat split; try done. right. done.
Qed.

(** X5. Repeating a processing request is harmless: the second identical
    request changes nothing and never answers [processing_started]. *)
Theorem process_upc_idempotent (W : World) (upc : string) (st : state) :
  (process_upc W upc (process_upc W upc st).2).2 = (process_upc W upc st).2
  ∧ (process_upc W upc (process_upc W upc st).2).1 ≠ started upc.
Proof.
  destruct (invalid_upc W upc) eqn:Hv.
  { assert (E : ∀ s, process_upc W upc s
                     = (mkResponse 400 (JObj [("error", JStr "Invalid UPC")]), s)).
    { intros s. unfold process_upc. by rewrite Hv. }
    rewrite !E. done. }
  destruct (bytes_truthy (redis_get (cache_key upc) st)) eqn:Hc.
  { assert (E : process_upc W upc st = (already_cached upc, st)).
    { unfold process_upc. by rewrite Hv, Hc. }
    rewrite E. simpl. rewrite E. done. }
  destruct (decide (upc ∈ processing_upcs st)) as [Hin|Hout].
  { assert (E : process_upc W upc st = (already_processing upc, st)).
    { unfold process_upc. rewrite Hv, Hc. by rewrite decide_True. }
    rewrite E. simpl. rewrite E. done. }
  assert (E1 : process_upc W upc st = (started upc, spawn upc st)).
  { unfold process_upc. rewrite Hv, Hc. by rewrite decide_False. }
  assert (E2 : process_upc W upc (spawn upc st)
               = (already_processing upc, spawn upc st)).
  { unfold process_upc. rewrite Hv.
    change (redis_get (cache_key upc) (spawn upc st))
      with (redis_get (cache_key upc) st).
    rewrite Hc. rewrite decide_True; [done |].
    simpl. apply elem_of_union_l, elem_of_singleton. done. }
  rewrite E1. simpl. rewrite E2. done.
Qed.

(** ** What the pipeline keeps *)

Lemma kept_refl st : kept st st.
Proof. split; [done |]. exists []. by rewrite app_nil_r. Qed.

Lemma kept_trans st1 st2 st3 : kept st1 st2 → kept st2 st3 → kept st1 st3.
Proof.
  intros [Hf1 [l1 Hc1]] [Hf2 [l2 Hc2]]. split.
  - intros p Hp. rewrite <- (Hf1 p Hp). apply Hf2.
    unfold has_content in *. by rewrite (Hf1 p Hp).
  - exists (l1 ++ l2)%list. by rewrite Hc2, Hc1, <- app_assoc.
Qed.

Lemma kept_same_files_calls st st' :
  files st' = files st → calls st' = calls st → kept st st'.
Proof.
  intros Hf Hc. split; [intros p _; by rewrite Hf |].
  exists []. by rewrite Hc, app_nil_r.
Qed.

Lemma kept_record_call c st : kept st (record_call c st).
Proof. split; [done |]. by exists [c]. Qed.

Lemma advances_ret {A} (a : A) : advances (mret a).
Proof. intros st. apply kept_refl. Qed.

Lemma advances_raise {A} e : advances (@raise A e).
Proof. intros st. apply kept_refl. Qed.

Lemma advances_lift {A} (r : result A) : advances (lift r).
Proof. intros st. apply kept_refl. Qed.

Lemma advances_bind {A B} (m : M A) (k : A → M B) :
  advances m → (∀ a, advances (k a)) → advances (m ≫= k).
Proof.
  intros Hm Hk st. unfold mbind, M_bind, bind.
  specialize (Hm st). destruct (m st) as [[a|e] st1]; simpl in *; [| done].
  eapply kept_trans; [exact Hm | apply Hk].
Qed.

Lemma advances_lookup W upc : advances (get_product_from_upcitemdb W upc).
Proof. intros st. rewrite lookup_state. apply kept_record_call. Qed.

Lemma advances_setex key days value : advances (redis_setex key days value).
Proof.
  intros st. unfold redis_setex.
  destruct ((days <? -999999999) || (999999999 <? days)); [apply kept_refl |].
  destruct (days * 86400 <=? 0); [apply kept_refl |].
  by apply kept_same_files_calls.
Qed.

(** one iteration of the image loop: it returns normally, writes only where
    no content was, and logs at most one download *)
Lemma save_one_run W upc i url saved st :
  ∃ saved' st',
    save_one W upc i url saved st = (Ret saved', st')
    ∧ kept st st'
    ∧ (saved' = saved ∨ ∃ p, saved' = (saved ++ [p])%list
                             ∧ is_Some (files st' !! p)
                             ∧ (valid_nonempty W → has_content (files st') p = true)
                             ∧ ∃ e, url_ext W url = Some e
                                    ∧ p = image_path upc i (ext_or_jpg e))
    ∧ (calls st' = calls st ∨ calls st' = (calls st ++ [CallDownload i url])%list).
Proof.
  unfold save_one. destruct (url_ext W url) as [e|] eqn:He.
  2: { exists saved, st. split; [done |]. split; [apply kept_refl |].
       split; [by left | by left]. }
  unfold mbind, M_bind, bind, get_state, modify, mret, M_ret, ret. cbv zeta.
  destruct (has_content (files st) (image_path upc i (ext_or_jpg e))) eqn:Hc.
  { eexists _, st. split; [done |]. split; [apply kept_refl |]. split; [| by left].
    right. eexists. split; [done |]. split.
    - unfold has_content in Hc.
      by destruct (files st !! image_path upc i (ext_or_jpg e)).
    - split; [done |]. by exists e. }
  destruct (http_get W i url) as [content|].
  2: { eexists saved, _. split; [done |]. split; [apply kept_record_call |].
       split; [by left | by right]. }
  destruct (pil_open W content && pil_verify W content) eqn:Hv;
    [destruct (can_write W (image_path upc i (ext_or_jpg e))) |].
  - eexists _, _. split; [done |]. split; [| split; [| by right]].
    + split; [| by exists [CallDownload i url]].
      intros p Hp. simpl. apply lookup_insert_ne. intros <-. congruence.
    + right. eexists. split; [done |]. simpl. rewrite lookup_insert_eq.
      split; [by eexists |]. split; [| by exists e].
      intros Hne. unfold has_content. rewrite lookup_insert_eq.
      specialize (Hne content Hv). by destruct content.
  - eexists saved, _. split; [done |]. split; [apply kept_record_call |].
    split; [by left | by right].
  - eexists saved, _. split; [done |]. split; [apply kept_record_call |].
    split; [by left | by right].
Qed.

Lemma advances_save_loop W upc urls : ∀ i saved, advances (save_loop W upc i urls saved).
Proof.
  induction urls as [|url rest IH]; intros i saved; simpl; [apply advances_ret |].
  apply advances_bind; [| intros; apply IH].
  intros st. destruct (save_one_run W upc i url saved st) as (s' & st' & -> & H & _).
  done.
Qed.

Lemma advances_mkdir W d : advances (mkdir W d).
Proof.
  intros st. destruct (mkdir_cases W d st) as (r & f & -> & _ & _).
  by apply kept_same_files_calls.
Qed.

Lemma advances_mkdir_base W : advances (mkdir_base W).
Proof.
  intros st. destruct (mkdir_base_cases W st) as (r & f & -> & _ & _).
  by apply kept_same_files_calls.
Qed.

Lemma advances_save_product_images W upc image_urls :
  advances (save_product_images W upc image_urls).
Proof.
  unfold save_product_images.
  destruct (negb (Py.truthy image_urls)); [apply advances_ret |].
  apply advances_bind; [apply advances_mkdir_base | intros _].
  apply advances_bind; [apply advances_mkdir | intros _].
  destruct (Py.iter image_urls); [apply advances_save_loop | apply advances_raise].
Qed.

(** the selector returns normally, changes nothing but the log, and logs at
    most one request *)
Lemma gemini_run W image_paths title brand st :
  ∃ r,
    (get_best_image_with_gemini W image_paths title brand st
     = (Ret r, st) ∧ (r = None))
    ∨ (get_best_image_with_gemini W image_paths title brand st
       = (Ret r, record_call (CallGemini (valid_paths W (files st) image_paths)) st)
       ∧ bytes_truthy (GEMINI_API_KEY W) = true
       ∧ valid_paths W (files st) image_paths ≠ []
       ∧ (∀ p, r = Some p → p ∈ valid_paths W (files st) image_paths)).
Proof.
  unfold get_best_image_with_gemini.
  destruct (bytes_truthy (GEMINI_API_KEY W)) eqn:Hkey.
  2: { exists None. left. done. }
  destruct image_paths as [|p0 ps].
  { exists None. left. done. }
  cbn [negb orb]. unfold mbind, M_bind, bind, get_state. cbv beta iota.
  remember (valid_paths W (files st) (p0 :: ps)) as valid eqn:Hvalid.
  clear Hvalid. destruct valid as [|v vs].
  { exists None. left. done. }
  set (valid := v :: vs) in *. unfold modify. cbv beta iota.
  assert (Hmem : ∀ text p, parse_choice W valid text = Some p → p ∈ valid).
  { intros text p. unfold parse_choice.
    destruct (py_int W (str_strip W text)) as [k|]; [| done].
    destruct (k =? 0); [done |].
    destruct ((0 <=? k - 1) && (k - 1 <? Z.of_nat (length valid))); [| done].
    apply list_elem_of_lookup_2. }
  destruct (generate_content W title brand (image_parts (files st) valid))
    as [|text].
  { exists None. right. repeat split; done. }
  destruct (negb (bytes_truthy text)).
  { exists None. right. repeat split; done. }
  eexists. right. split; [done |]. split; [done |]. split; [done |].
  intros p Hp. by apply (Hmem (default "" text)).
Qed.

Lemma advances_gemini W image_paths title brand :
  advances (get_best_image_with_gemini W image_paths title brand).
Proof.
  intros st. destruct (gemini_run W image_paths title brand st)
    as [r [[-> _] | [-> _]]]; [apply kept_refl | apply kept_record_call].
Qed.

Lemma advances_process_images W upc item image_urls from_cache :
  advances (process_images W upc item image_urls from_cache).
Proof.
  unfold process_images.
  destruct (negb from_cache && Py.truthy image_urls); [| apply advances_ret].
  apply advances_bind; [apply advances_save_product_images |].
  intros [|p ps]; [apply advances_ret |].
  repeat (apply advances_bind; [apply advances_lift | intros ?]).
  apply advances_bind; [apply advances_gemini | intros best].
  destruct (bytes_truthy best); apply advances_ret.
Qed.

Lemma advances_format W upc data from_cache :
  advances (format_product_data W upc data from_cache).
Proof.
  unfold format_product_data.
  apply advances_bind; [apply advances_lift | intros ok].
  destruct (negb ok); [apply advances_ret |].
  repeat (apply advances_bind; [apply advances_lift | intros ?]).
  apply advances_bind; [apply advances_process_images | intros [? ?]].
  repeat (apply advances_bind; [apply advances_lift | intros ?]).
  apply advances_ret.
Qed.

(** the part of the job after the lookup *)
Lemma advances_job_body W upc : advances (job_body W upc).
Proof.
  unfold job_body.
  apply advances_bind; [apply advances_lookup | intros [data|]; [| apply advances_ret]].
  apply advances_bind; [apply advances_lift | intros ok].
  destruct (negb ok); [apply advances_ret |].
  apply advances_bind; [apply advances_format | intros [f|]; [| apply advances_ret]].
  destruct (Py.truthy f); [apply advances_setex | apply advances_ret].
Qed.

(** ** The job and the requests around it *)

Lemma job_failure_cache W upc st :
  pipeline_fails W upc st → redis (job_body W upc st).2 = redis st.
Proof.
  intros Hfail. destruct (job_body W upc st) as [r st1] eqn:Hjob. simpl.
  destruct (job_body_cache W upc st r st1 Hjob)
    as [Hsame | (-> & data & f & st2 & Hl & Hok & Hf & Hw)]; [done |].
  exfalso. destruct Hfail as [[H|H] | d H1 H2 | d s H1 H2 | e s H]; congruence.
Qed.

Lemma job_state W upc st :
  (process_upc_background W upc st).2 = release upc (job_body W upc st).2.
Proof. by rewrite job_outcome. Qed.

Lemma release_redis upc st : redis (release upc st) = redis st.
Proof. done. Qed.

Lemma dumps_nonempty v : MiniJson.dumps v ≠ "".
Proof.
  destruct v as [| [] | n | s | l | kvs]; try done.
  - simpl. unfold MiniJson.of_Z.
    destruct n as [|p|p]; simpl; [done | | done].
    pose proof (DecimalPos.Unsigned.to_uint_nonnil p) as Hp.
    by destruct (Pos.to_uint p).
Qed.

(** X6. Retry after a failure. When the pipeline of the job for a valid,
    uncached key fails, the next processing request for that key is accepted
    again: it answers [processing_started] and starts a new job. *)
Theorem retry_after_failure (W : World) (upc : string) (st : state) :
  str_isdigit W upc = true →
  redis st !! cache_key upc = None →
  pipeline_fails W upc st →
  process_upc W upc (process_upc_background W upc st).2
  = (started upc, spawn upc (process_upc_background W upc st).2).
Proof.
  intros Hd Hc Hfail. rewrite job_state.
  set (st1 := release upc (job_body W upc st).2).
  assert (Hr : redis st1 !! cache_key upc = None).
  { unfold st1. by rewrite release_redis, (job_failure_cache W upc st Hfail). }
  assert (Hout : upc ∉ processing_upcs st1).
  { unfold st1. rewrite release_spec. tauto. }
  clearbody st1. unfold process_upc, redis_get.
  rewrite (isdigit_valid _ Hd), Hr. simpl. by rewrite decide_False.
Qed.

Lemma retry_after_failure_witness :
  (str_isdigit Demo.W0 "999" = true
   ∧ redis (spawn "999" Demo.empty_state) !! cache_key "999" = None
   ∧ pipeline_fails Demo.W0 "999" (spawn "999" Demo.empty_state))
  ∧ (process_upc Demo.W0 "999"
       (process_upc_background Demo.W0 "999" (spawn "999" Demo.empty_state)).2).1
    = started "999".
Proof.
  assert (Hfail : pipeline_fails Demo.W0 "999" (spawn "999" Demo.empty_state)).
  { apply fails_transient. left. reflexivity. }
  split; [split; [reflexivity | split; [reflexivity | exact Hfail]] |].
  rewrite (retry_after_failure Demo.W0 "999" (spawn "999" Demo.empty_state));
    [reflexivity | reflexivity | reflexivity | exact Hfail].
Defined.

(** X7. Cached after a success. With a serializer that never yields the empty
    string, when the job for a valid key wrote to the cache, the next
    processing request for that key answers [already_cached] and starts
    nothing. *)
Theorem cached_after_success (W : World) (upc : string) (st : state) :
  (∀ v, json_dumps W v ≠ "") →
  str_isdigit W upc = true →
  redis (process_upc_background W upc st).2 ≠ redis st →
  process_upc W upc (process_upc_background W upc st).2
  = (already_cached upc, (process_upc_background W upc st).2).
Proof.
  intros Hne Hd. rewrite job_state, release_redis.
  destruct (job_body W upc st) as [r st1] eqn:Hjob. simpl snd.
  destruct (job_body_cache W upc st r st1 Hjob)
    as [Hsame | (-> & data & f & st2 & Hl & Hok & Hf & Hw)]; [done |].
  intros _. set (st3 := release upc st1).
  assert (Hr : redis st3 !! cache_key upc
               = Some (json_dumps W f, CACHE_EXPIRY_DAYS W)).
  { unfold st3. by rewrite release_redis, Hw, lookup_insert_eq. }
  clearbody st3. unfold process_upc, redis_get.
  rewrite (isdigit_valid _ Hd), Hr. simpl.
  specialize (Hne f). by destruct (json_dumps W f).
Qed.

Lemma cached_after_success_witness :
  (str_isdigit Demo.W0 "012345" = true
   ∧ redis Runs.after_job ≠ redis (spawn "012345" Demo.empty_state))
  ∧ process_upc Demo.W0 "012345" Runs.after_job = (already_cached "012345", Runs.after_job).
Proof.
  assert (Hwritten : redis Runs.after_job ≠ redis (spawn "012345" Demo.empty_state)).
  { intros H. apply (f_equal (λ m, m !! "upc:012345")) in H.
    vm_compute in H. discriminate. }
  split; [split; [reflexivity | exact Hwritten] |].
  apply (cached_after_success Demo.W0 "012345" (spawn "012345" Demo.empty_state)).
  - exact dumps_nonempty.
  - reflexivity.
  - exact Hwritten.
Defined.

(** X8. What the job leaves alone: it starts no job, it changes no cache entry
    but the one of its key, it never rewrites or removes a stored file that
    has content, and the first network request it makes is the lookup of
    its key. *)
Theorem job_effects (W : World) (upc : string) (st : state) :
  threads (process_upc_background W upc st).2 = threads st
  ∧ (∀ k, k ≠ cache_key upc →
          redis (process_upc_background W upc st).2 !! k = redis st !! k)
  ∧ (∀ p, has_content (files st) p = true →
          files (process_upc_background W upc st).2 !! p = files st !! p)
  ∧ ∃ rest, calls (process_upc_background W upc st).2
            = (calls st ++ CallLookup upc :: rest)%list.
Proof.
  rewrite job_state. split; [| split; [| split]].
  - apply (preserves_job_body W threads upc); done.
  - intros k Hk. rewrite release_redis.
    destruct (job_body W upc st) as [r st1] eqn:Hjob. simpl snd.
    destruct (job_body_cache W upc st r st1 Hjob)
      as [-> | (_ & _ & f & _ & _ & _ & _ & ->)]; [done |].
    by apply lookup_insert_ne.
  - intros p Hp. destruct (advances_job_body W upc st) as [Hf _]. by apply Hf.
  - change (calls (release upc (job_body W upc st).2))
      with (calls (job_body W upc st).2).
    unfold job_body, mbind at 1, M_bind at 1, bind at 1.
    pose proof (lookup_state W upc st) as Hst.
    destruct (get_product_from_upcitemdb W upc st) as [[[data|]|e] st0];
      simpl in Hst; subst st0.
    + match goal with
      | |- context [calls (?k (record_call ?c st)).2] =>
          assert (Hk : advances k)
      end.
      { apply advances_bind; [apply advances_lift | intros ok].
        destruct (negb ok); [apply advances_ret |].
        apply advances_bind; [apply advances_format |].
        intros [f|]; [| apply advances_ret].
        destruct (Py.truthy f); [apply advances_setex | apply advances_ret]. }
      destruct (Hk (record_call (CallLookup upc) st)) as [_ [l Hl]].
      exists l. rewrite Hl. simpl. by rewrite <- app_assoc.
    + by exists [].
    + by exists [].
Qed.

(** X9. A lookup that fails with a request error or with a body that is not
    JSON ends the job at once: the lookup is the only network request, no
    file and no cache entry is written, and the key is released. *)
Theorem job_after_transient_error (W : World) (upc : string) (st : state) :
  upcitemdb W upc = LookupRequestException ∨ upcitemdb W upc = LookupJSONDecodeError →
  (process_upc_background W upc st).2
  = release upc (record_call (CallLookup upc) st).
Proof.
  intros H. rewrite job_state. f_equal.
  unfold job_body, get_product_from_upcitemdb, mbind, M_bind, bind. simpl.
  by destruct H as [-> | ->].
Qed.

Lemma job_after_transient_error_witness :
  (upcitemdb Demo.W0 "999" = LookupRequestException
   ∨ upcitemdb Demo.W0 "999" = LookupJSONDecodeError)
  ∧ calls (process_upc_background Demo.W0 "999" (spawn "999" Demo.empty_state)).2
    = [CallLookup "999"].
Proof.
  assert (H : upcitemdb Demo.W0 "999" = LookupRequestException
              ∨ upcitemdb Demo.W0 "999" = LookupJSONDecodeError).
  { left. reflexivity. }
  split; [exact H |].
  rewrite (job_after_transient_error Demo.W0 "999" (spawn "999" Demo.empty_state) H).
  reflexivity.
Defined.

(** ** Batch requests *)

Lemma endswith_csv_nonempty name :
  PyStr.endswith ".csv" name = true → PyStr.truthy name = true.
Proof. by destruct name. Qed.

(** the five ways a batch request ends *)
Lemma process_batch_cases W file st :
  (∃ name column,
     file = csv_upload name column
     ∧ PyStr.endswith ".csv" name = true
     ∧ process_batch W file st
       = (mkResponse 202 (batch_report (unique (astype_str column))
                            (List.filter (to_process W st) (unique (astype_str column)))),
          foldl (λ s upc, spawn upc s) st
            (List.filter (to_process W st) (unique (astype_str column)))))
  ∨ (∃ name msg,
       file = Some (mkUpload name (CsvException msg))
       ∧ PyStr.endswith ".csv" name = true
       ∧ status_code (process_batch W file st).1 = 500
       ∧ (process_batch W file st).2 = st)
  ∨ ((file = None
      ∨ (∃ name r, file = Some (mkUpload name r) ∧ PyStr.endswith ".csv" name = false)
      ∨ (∃ name, file = Some (mkUpload name (CsvFrame None))))
     ∧ status_code (process_batch W file st).1 = 400
     ∧ (process_batch W file st).2 = st).
Proof.
  destruct file as [[name r]|].
  2: { right. right. split; [by left | done]. }
  unfold process_batch. simpl filename. simpl read_csv.
  destruct (PyStr.endswith ".csv" name) eqn:Hc.
  - rewrite (endswith_csv_nonempty name Hc). simpl negb. cbv iota.
    destruct r as [msg | [column|]].
    + right. left. by exists name, msg.
    + left. by exists name, column.
    + right. right. split; [| done]. right. right. by exists name.
  - right. right. split.
    + right. left. by exists name, r.
    + by destruct (negb (PyStr.truthy name)).
Qed.

(** X10. A batch request never touches the cache, the files or the network
    and never takes a key out of the in-flight set; unless it answers 202 it
    changes nothing at all, and its answer is then 400 or 500. *)
Theorem process_batch_effects (W : World) (file : option upload)
    (st : state) :
  redis (process_batch W file st).2 = redis st
  ∧ files (process_batch W file st).2 = files st
  ∧ calls (process_batch W file st).2 = calls st
  ∧ processing_upcs st ⊆ processing_upcs (process_batch W file st).2
  ∧ (status_code (process_batch W file st).1 ≠ 202 →
     (process_batch W file st).2 = st
     ∧ (status_code (process_batch W file st).1 = 400
        ∨ status_code (process_batch W file st).1 = 500)).
Proof.
  destruct (process_batch_cases W file st)
    as [(name & column & _ & _ & ->)
       | [(name & msg & _ & _ & Hs & ->) | (_ & Hs & ->)]].
  - simpl fst. simpl snd.
    destruct (spawn_all (List.filter (to_process W st) (unique (astype_str column))) st)
      as (-> & -> & -> & _ & ->).
    split; [done |]. split; [done |]. split; [done |]. split; [| done].
    intros k Hk. apply elem_of_union. by right.
  - split; [done |]. split; [done |]. split; [done |]. split; [done |].
    intros _. split; [done |]. by right.
  - split; [done |]. split; [done |]. split; [done |]. split; [done |].
    intros _. split; [done |]. by left.
Qed.

(** X11. The answer of a batch request is 202 exactly when the upload is a
    file whose name ends in [.csv], that parses, and that has a [upc] column;
    it is 500 exactly when the name ends in [.csv] and parsing raises. *)
Theorem process_batch_status (W : World) (file : option upload)
    (st : state) :
  (status_code (process_batch W file st).1 = 202
   ↔ ∃ name column, file = csv_upload name column
                    ∧ PyStr.endswith ".csv" name = true)
  ∧ (status_code (process_batch W file st).1 = 500
     ↔ ∃ name msg, file = Some (mkUpload name (CsvException msg))
                   ∧ PyStr.endswith ".csv" name = true).
Proof.
  destruct (process_batch_cases W file st)
    as [(name & column & -> & Hc & Hrun)
       | [(name & msg & -> & Hc & Hs & _)
         | ([-> | [(name & r & -> & Hc) | (name & ->)]] & Hs & _)]].
  - rewrite Hrun. simpl. split; split; try done.
    + intros _. by exists name, column.
    + by intros (n & m & [=] & _).
  - rewrite Hs. split; split; try done.
    + by intros (n & c & [=] & _).
    + intros _. by exists name, msg.
  - rewrite Hs. split; split; try done.
    + by intros (n & c & [=] & _).
    + by intros (n & m & [=] & _).
  - rewrite Hs. split; split; try done.
    + intros (n & c & [= <- _] & Hc'). congruence.
    + intros (n & m & [= <- _] & Hc'). congruence.
  - rewrite Hs. split; split; try done.
    + by intros (n & c & [=] & _).
    + by intros (n & m & [=] & _).
Qed.

Lemma list_filter_none {A} (f : A → bool) l :
  (∀ x, x ∈ l → f x = false) → List.filter f l = [].
Proof.
  induction l as [|x l IH]; intros H; simpl; [done |].
  rewrite (H x) by apply list_elem_of_here.
  apply IH. intros y Hy. apply H. by apply list_elem_of_further.
Qed.

(** after the jobs of a batch are started, no key of the file is left to
    process *)
Lemma nothing_left_to_process W st column k :
  to_process W
    (foldl (λ s upc, spawn upc s) st (List.filter (to_process W st) (unique column)))
    k = true →
  k ∉ unique column.
Proof.
  destruct (spawn_all (List.filter (to_process W st) (unique column)) st)
    as (Hr & _ & _ & _ & Hp).
  set (queued := List.filter (to_process W st) (unique column)) in *.
  set (st1 := foldl (λ s upc, spawn upc s) st queued) in *.
  intros Hk Hin. unfold to_process, redis_exists in Hk. rewrite Hr, Hp in Hk.
  apply andb_prop in Hk as [Hk Hd]. apply andb_prop in Hk as [Hc Hf].
  apply negb_true_iff, bool_decide_eq_false in Hf. apply Hf.
  apply elem_of_union.
  destruct (decide (k ∈ processing_upcs st)) as [|Hout]; [by right | left].
  apply elem_of_list_to_set. unfold queued.
  apply elem_of_list_filter_bool. split; [done |].
  unfold to_process, redis_exists. rewrite Hc, Hd.
  by rewrite bool_decide_eq_false_2.
Qed.

(** X12. Submitting the same batch again is harmless: the second request
    changes nothing, and when the first one was accepted the second one
    reports no key queued. *)
Theorem process_batch_idempotent (W : World) (file : option upload)
    (st : state) :
  (process_batch W file (process_batch W file st).2).2 = (process_batch W file st).2
  ∧ (status_code (process_batch W file st).1 = 202 →
     field "upcs_queued" (process_batch W file (process_batch W file st).2).1
     = Some (JNum 0)).
Proof.
  destruct (process_batch_cases W file st)
    as [(name & column & -> & Hc & Hrun)
       | [(name & msg & -> & Hc & Hs & Hst) | (_ & Hs & Hst)]].
  - rewrite Hrun. cbn [fst snd].
    rewrite (batch_accepted W name column _ (endswith_csv_nonempty name Hc) Hc).
    rewrite list_filter_none.
    + done.
    + intros k Hk.
      destruct (to_process W _ k) eqn:E; [| done].
      by apply nothing_left_to_process in E.
  - rewrite Hst. split; [done |]. rewrite Hs. done.
  - rewrite Hst. split; [done |]. rewrite Hs. done.
Qed.

(** X13. A key that a batch has queued is in flight for the single-key
    endpoint: a processing request for it answers [processing] and changes
    nothing. *)
Theorem batch_then_process_upc (W : World) (name : string) (column : series)
    (st : state) (k : string) :
  PyStr.endswith ".csv" name = true →
  k ∈ new_keys W st (astype_str column) →
  process_upc W k (process_batch W (csv_upload name column) st).2
  = (already_processing k, (process_batch W (csv_upload name column) st).2).
Proof.
  intros Hc Hk.
  rewrite (batch_accepted W name column st (endswith_csv_nonempty name Hc) Hc).
  simpl snd.
  destruct (spawn_all (List.filter (to_process W st) (unique (astype_str column))) st)
    as (Hr & _ & _ & _ & Hp).
  unfold new_keys, unique_keys in Hk.
  apply elem_of_filter in Hk as [(Hd & Hnone & Hout) Hin].
  apply elem_of_list_to_set in Hin.
  set (st1 := foldl (λ s upc, spawn upc s) st _) in *.
  assert (Hin1 : k ∈ processing_upcs st1).
  { rewrite Hp. apply elem_of_union_l, elem_of_list_to_set.
    apply elem_of_list_filter_bool. split; [by apply elem_of_unique |].
    apply to_process_fresh. done. }
  clearbody st1. unfold process_upc, redis_get.
  rewrite (isdigit_valid _ Hd), Hr, Hnone. simpl. by rewrite decide_True.
Qed.

Lemma batch_then_process_upc_witness :
  (PyStr.endswith ".csv" "keys.csv" = true
   ∧ "123" ∈ new_keys Demo.W0 Runs.cached_456 (astype_str Runs.rows_123_123_456))
  ∧ (process_upc Demo.W0 "123"
       (process_batch Demo.W0 (csv_upload "keys.csv" Runs.rows_123_123_456)
          Runs.cached_456).2).1
    = already_processing "123".
Proof.
  assert (Hk : "123" ∈ new_keys Demo.W0 Runs.cached_456
                        (astype_str Runs.rows_123_123_456)).
  { apply elem_of_filter. split.
    - split; [reflexivity | split; [reflexivity |]]. apply not_elem_of_empty.
    - apply elem_of_list_to_set, list_elem_of_here. }
  split; [split; [reflexivity | exact Hk] |].
  rewrite (batch_then_process_upc Demo.W0 "keys.csv" Runs.rows_123_123_456
             Runs.cached_456 "123"); [reflexivity | reflexivity | exact Hk].
Defined.

(** ** Image fetch and validate, further *)

Lemma kept_has_content st st' p :
  kept st st' → has_content (files st) p = true → has_content (files st') p = true.
Proof.
  intros [Hf _] Hp. unfold has_content in *. by rewrite (Hf p Hp).
Qed.

Lemma all_paths_length W upc urls : ∀ i, (length (all_paths W upc i urls) ≤ length urls)%nat.
Proof.
  induction urls as [|u us IH]; intros i; simpl; [done |].
  specialize (IH (S i)). destruct (url_ext W u); simpl; lia.
Qed.

(** the loop as a whole: what it returns and what it logs *)
Lemma save_loop_run W upc urls : ∀ i saved st,
  ∃ found st' downloads,
    save_loop W upc i urls saved st = (Ret (saved ++ found)%list, st')
    ∧ found `sublist_of` all_paths W upc i urls
    ∧ calls st' = (calls st ++ downloads)%list
    ∧ forallb is_download downloads = true
    ∧ (length downloads ≤ length urls)%nat
    ∧ (valid_nonempty W →
       (∀ p, p ∈ saved → has_content (files st) p = true) →
       ∀ p, p ∈ (saved ++ found)%list → has_content (files st') p = true).
Proof.
  induction urls as [|url rest IH]; intros i saved st.
  { exists [], st, []. simpl. rewrite !app_nil_r. repeat split; done. }
  simpl. unfold mbind, M_bind, bind.
  destruct (save_one_run W upc i url saved st)
    as (saved1 & st1 & -> & Hkept & Hsaved & Hcalls).
  destruct (IH (S i) saved1 st1)
    as (found & st' & downloads & -> & Hsub & Hc & Hd & Hlen & Hstored).
  assert (Hlog : ∃ ds, calls st' = (calls st ++ ds)%list
                       ∧ forallb is_download ds = true
                       ∧ (length ds ≤ length (url :: rest))%nat).
  { destruct Hcalls as [E | E]; rewrite Hc, E.
    - exists downloads. split; [done |]. split; [done |]. simpl. lia.
    - exists (CallDownload i url :: downloads). rewrite <- app_assoc.
      split; [done |]. split; [done |]. simpl. lia. }
  destruct Hlog as (ds & Hds & Hfd & Hld).
  destruct Hsaved as [-> | (p & -> & Hex & Hcontent & e & He & ->)].
  - exists found, st', ds. split; [done |]. split.
    { destruct (url_ext W url); [by apply sublist_cons | done]. }
    split; [done |]. split; [done |]. split; [done |].
    intros Hne Hold. apply Hstored; [done |].
    intros p Hp. by apply (kept_has_content st st1), Hold.
  - exists (image_path upc i (ext_or_jpg e) :: found), st', ds.
    split; [by rewrite <- app_assoc |]. split.
    { rewrite He. by apply sublist_skip. }
    split; [done |]. split; [done |]. split; [done |].
    intros Hne Hold p Hp. apply Hstored; [done | |].
    + intros q [Hq | ->%list_elem_of_singleton]%elem_of_app.
      * by apply (kept_has_content st st1), Hold.
      * by apply Hcontent.
    + by rewrite <- app_assoc.
Qed.

(** X14. [save_product_images] never rewrites or removes a stored file that
    has content, and touches neither the cache, nor the in-flight set, nor
    the jobs. *)
Theorem save_product_images_keeps (W : World) (upc : string) (image_urls : json)
    (st : state) :
  (∀ p, has_content (files st) p = true →
        files (save_product_images W upc image_urls st).2 !! p = files st !! p)
  ∧ redis (save_product_images W upc image_urls st).2 = redis st
  ∧ processing_upcs (save_product_images W upc image_urls st).2 = processing_upcs st
  ∧ threads (save_product_images W upc image_urls st).2 = threads st.
Proof.
  split; [| split; [| split]].
  - apply (advances_save_product_images W upc image_urls st).
  - by apply (preserves_save_product_images W redis).
  - by apply (preserves_save_product_images W processing_upcs).
  - by apply (preserves_save_product_images W threads).
Qed.

(** X15. With an image decoder that rejects empty input, every path that
    [save_product_images] returns holds a non-empty file when it returns. *)
Theorem saved_paths_are_stored (W : World) (upc : string) (image_urls : json)
    (st : state) (saved_paths : list string) (st' : state) :
  valid_nonempty W →
  save_product_images W upc image_urls st = (Ret saved_paths, st') →
  ∀ p, p ∈ saved_paths → has_content (files st') p = true.
Proof.
  intros Hne. destruct (Py.truthy image_urls) eqn:Ht.
  2: { unfold save_product_images. rewrite Ht.
       intros [= <- <-] p Hp. by apply elem_of_nil in Hp. }
  destruct (save_product_images_mkdirs W upc image_urls st Ht)
    as (f & [(-> & _ & _) | [-> _]]); [| done].
  unfold save_all. destruct (Py.iter image_urls) as [urls|]; [| done].
  destruct (save_loop_run W upc urls 1 [] (set_dirs f st))
    as (found & st1 & ds & -> & _ & _ & _ & _ & Hstored).
  intros [= <- <-]. apply Hstored; [done |].
  intros p Hp. by apply elem_of_nil in Hp.
Qed.

Lemma demo_valid_nonempty text : valid_nonempty (Demo.world text).
Proof. intros c. simpl. by destruct c. Qed.

Lemma saved_paths_are_stored_witness :
  (save_product_images Demo.W0 "42" Runs.two_urls Demo.empty_state
   = (Ret ["static/upc_images/42/42_1.png"; "static/upc_images/42/42_2.jpg"],
      Runs.first_fetch.2)
   ∧ "static/upc_images/42/42_2.jpg"
     ∈ ["static/upc_images/42/42_1.png"; "static/upc_images/42/42_2.jpg"])
  ∧ has_content (files Runs.first_fetch.2) "static/upc_images/42/42_2.jpg" = true.
Proof.
  assert (Hin : "static/upc_images/42/42_2.jpg"
                ∈ ["static/upc_images/42/42_1.png"; "static/upc_images/42/42_2.jpg"]).
  { apply list_elem_of_further, list_elem_of_here. }
  split; [split; [reflexivity | exact Hin] |].
  apply (saved_paths_are_stored Demo.W0 "42" Runs.two_urls Demo.empty_state
           ["static/upc_images/42/42_1.png"; "static/upc_images/42/42_2.jpg"]
           Runs.first_fetch.2).
  - apply demo_valid_nonempty.
  - reflexivity.
  - exact Hin.
Defined.

(** X16. On a list of URLs, [save_product_images] either fails with
    [OSError] before any download, because one of the two directories was
    missing and could not be made (the files and the log are then as
    before), or returns destination paths in URL order, each at most once per
    position: the result is a sublist of the destinations of the URLs, so it
    is never longer than the URL list; and it makes at most one download per
    URL and no other request. With the two directories in place, or with no
    URL, it returns. *)
Theorem saved_paths_in_order (W : World) (upc : string) (image_urls : json)
    (urls : list json) (st : state) :
  Py.iter image_urls = Some urls →
  (∃ saved_paths downloads,
     (save_product_images W upc image_urls st).1 = Ret saved_paths
     ∧ saved_paths `sublist_of` all_paths W upc 1 urls
     ∧ (length saved_paths ≤ length urls)%nat
     ∧ calls (save_product_images W upc image_urls st).2
       = (calls st ++ downloads)%list
     ∧ forallb is_download downloads = true
     ∧ (length downloads ≤ length urls)%nat)
  ∨ ((save_product_images W upc image_urls st).1 = Raise OSError
     ∧ urls ≠ []
     ∧ (is_dir st "static/upc_images" = false
        ∨ is_dir st (upc_dir upc) = false)
     ∧ files (save_product_images W upc image_urls st).2 = files st
     ∧ calls (save_product_images W upc image_urls st).2 = calls st).
Proof.
  intros Hiter. destruct (Py.truthy image_urls) eqn:Ht.
  2: { left. unfold save_product_images. rewrite Ht.
       exists [], []. simpl. rewrite app_nil_r.
       split; [done |]. split; [apply sublist_nil_l |]. repeat split; lia. }
  destruct (save_product_images_mkdirs W upc image_urls st Ht)
    as (f & [(-> & _ & _) | [-> Hdirs]]).
  - left. unfold save_all. rewrite Hiter.
    destruct (save_loop_run W upc urls 1 [] (set_dirs f st))
      as (found & st1 & ds & -> & Hsub & Hc & Hd & Hlen & _).
    exists found, ds. simpl. split; [done |]. split; [done |]. split.
    + etrans; [by apply sublist_length | apply all_paths_length].
    + done.
  - right. split; [done |].
    split; [by apply (truthy_iter_nonempty image_urls) |]. done.
Qed.

Lemma saved_paths_in_order_witness :
  Py.iter (JArr [JStr "http://img.example/a.png";
                 JStr "http://img.example/broken.png";
                 JStr "http://img.example/c"])
  = Some [JStr "http://img.example/a.png"; JStr "http://img.example/broken.png";
          JStr "http://img.example/c"]
  ∧ ∃ saved_paths,
      (save_product_images Demo.W0 "42"
         (JArr [JStr "http://img.example/a.png";
                JStr "http://img.example/broken.png";
                JStr "http://img.example/c"]) Demo.empty_state).1 = Ret saved_paths
      ∧ (length saved_paths ≤ 3)%nat.
Proof.
  split; [reflexivity |].
  destruct (saved_paths_in_order Demo.W0 "42"
              (JArr [JStr "http://img.example/a.png";
                     JStr "http://img.example/broken.png";
                     JStr "http://img.example/c"])
              [JStr "http://img.example/a.png"; JStr "http://img.example/broken.png";
               JStr "http://img.example/c"] Demo.empty_state eq_refl)
    as [(saved & ds & Hrun & _ & Hlen & _) | (Hrun & _)].
  - exists saved. split; [exact Hrun | exact Hlen].
  - vm_compute in Hrun. discriminate Hrun.
Defined.

(** a key too long for a directory name: the base directories are made, the
    one of the key is refused, and nothing is downloaded *)
Example save_product_images_long_key :
  String.length Runs.long_key = 300%nat
  ∧ (save_product_images Demo.W0 Runs.long_key Runs.two_urls Demo.empty_state).1
    = Raise OSError
  ∧ dirs (save_product_images Demo.W0 Runs.long_key Runs.two_urls
            Demo.empty_state).2
    = {[ "static"; "static/upc_images" ]}
  ∧ calls (save_product_images Demo.W0 Runs.long_key Runs.two_urls
             Demo.empty_state).2 = [].
Proof.
  split; [reflexivity |]. repeat split; by vm_compute.
Qed.

(** X17. [save_product_images] raises in two ways only. [OSError]: the
    argument is true and one of the two directories was missing and could
    not be made. [TypeError]: the argument is true and cannot be iterated, a
    non-zero number or [true], and by then both directories exist. Either
    way nothing but the set of directories has changed: no file, no cache
    entry, no request. An argument that cannot be iterated never gives a
    list; an empty or absent one gives the empty list and makes no
    directory. *)
Theorem save_product_images_raises (W : World) (upc : string) (image_urls : json)
    (st : state) :
  (∀ e, (save_product_images W upc image_urls st).1 = Raise e →
        Py.truthy image_urls = true
        ∧ (∃ f, (save_product_images W upc image_urls st).2 = set_dirs f st
                ∧ ∀ ds : gset string, ds ⊆ f ds)
        ∧ ((e = OSError
            ∧ (is_dir st "static/upc_images" = false
               ∨ is_dir st (upc_dir upc) = false))
           ∨ (e = TypeError
              ∧ Py.iter image_urls = None
              ∧ is_dir (save_product_images W upc image_urls st).2
                  "static/upc_images" = true
              ∧ is_dir (save_product_images W upc image_urls st).2
                  (upc_dir upc) = true)))
  ∧ ((∃ n, image_urls = JNum n ∧ n ≠ 0) ∨ image_urls = JBool true →
     ∃ e, (save_product_images W upc image_urls st).1 = Raise e)
  ∧ (Py.truthy image_urls = false →
     save_product_images W upc image_urls st = (Ret [], st)).
Proof.
  split; [| split].
  - intros e. destruct (Py.truthy image_urls) eqn:Ht.
    2: { unfold save_product_images. by rewrite Ht. }
    rewrite (save_product_images_truthy W upc image_urls st Ht).
    destruct (mkdir_base_cases W st) as (r & f & -> & Hf & [[-> Hb] | [-> Hb]]).
    2: { intros [= <-]. split; [done |]. split; [by exists f |].
         left. split; [done | by left]. }
    destruct (mkdir_cases W (upc_dir upc) (set_dirs f st))
      as (r & g & -> & Hg & [[-> Hd] | [-> Hd]]).
    + unfold save_all.
      destruct (Py.iter image_urls) as [urls|] eqn:Hiter.
      * destruct (save_loop_run W upc urls 1 [] (set_dirs g (set_dirs f st)))
          as (found & st1 & ds & -> & _). done.
      * intros [= <-]. split; [done |]. simpl snd. split.
        { exists (λ ds, g (f ds)). split; [done |].
          intros ds. etrans; [apply Hf | apply Hg]. }
        right. split; [done |]. split; [done |]. split; [| done].
        by apply (is_dir_mono (set_dirs f st) g).
    + intros [= <-]. split; [done |]. simpl snd. split.
      { exists (λ ds, g (f ds)). split; [done |].
        intros ds. etrans; [apply Hf | apply Hg]. }
      left. split; [done |].
      destruct (is_dir st "static/upc_images") eqn:Hb0; [right | by left].
      destruct (is_dir st (upc_dir upc)) eqn:Hd0; [| done].
      by rewrite (is_dir_mono st f) in Hd.
  - intros Hno.
    assert (Ht : Py.truthy image_urls = true).
    { destruct Hno as [(n & -> & Hn) | ->]; [| done]. simpl.
      apply negb_true_iff, Z.eqb_neq. done. }
    assert (Hiter : Py.iter image_urls = None).
    { by destruct Hno as [(n & -> & Hn) | ->]. }
    destruct (save_product_images_mkdirs W upc image_urls st Ht)
      as (f & [(-> & _ & _) | [-> _]]); [| by eexists].
    unfold save_all. rewrite Hiter. by eexists.
  - intros Ht. unfold save_product_images. by rewrite Ht.
Qed.

(** ** Best-image selector, further *)

(** X18. The image the selector returns is always one of the supplied paths,
    and one whose file opened; it is returned only when an API key is
    configured. *)
Theorem selected_image_was_supplied (W : World) (image_paths : list string)
    (title brand : json) (st st' : state) (p : string) :
  get_best_image_with_gemini W image_paths title brand st = (Ret (Some p), st') →
  p ∈ image_paths
  ∧ opens W (files st) p = true
  ∧ bytes_truthy (GEMINI_API_KEY W) = true.
Proof.
  intros Hrun.
  destruct (gemini_run W image_paths title brand st)
    as [r [[E ->] | (E & Hkey & _ & Hmem)]]; rewrite E in Hrun.
  - done.
  - injection Hrun as -> _. specialize (Hmem p eq_refl).
    unfold valid_paths in Hmem. apply elem_of_list_filter_bool in Hmem as [? ?].
    done.
Qed.

Lemma selected_image_was_supplied_witness :
  get_best_image_with_gemini (Runs.answering "2") Runs.three_paths JNull JNull
    Runs.second_unreadable
  = (Ret (Some "static/upc_images/9/9_3.png"),
     (get_best_image_with_gemini (Runs.answering "2") Runs.three_paths JNull JNull
        Runs.second_unreadable).2)
  ∧ "static/upc_images/9/9_3.png" ∈ Runs.three_paths.
Proof.
  assert (H : get_best_image_with_gemini (Runs.answering "2") Runs.three_paths
                JNull JNull Runs.second_unreadable
              = (Ret (Some "static/upc_images/9/9_3.png"),
                 (get_best_image_with_gemini (Runs.answering "2") Runs.three_paths
                    JNull JNull Runs.second_unreadable).2)).
  { vm_compute. reflexivity. }
  split; [exact H |].
  destruct (selected_image_was_supplied _ _ _ _ _ _ _ H) as [Hin _]. exact Hin.
Defined.

(** X19. The selector never raises and never changes the cache, the files,
    the in-flight set or the jobs. It makes at most one request; without an
    API key, or when no supplied file opens, it makes none and returns
    none. *)
Theorem selector_effects (W : World) (image_paths : list string)
    (title brand : json) (st : state) :
  (∃ r, (get_best_image_with_gemini W image_paths title brand st).1 = Ret r)
  ∧ redis (get_best_image_with_gemini W image_paths title brand st).2 = redis st
  ∧ files (get_best_image_with_gemini W image_paths title brand st).2 = files st
  ∧ processing_upcs (get_best_image_with_gemini W image_paths title brand st).2
    = processing_upcs st
  ∧ threads (get_best_image_with_gemini W image_paths title brand st).2 = threads st
  ∧ (calls (get_best_image_with_gemini W image_paths title brand st).2 = calls st
     ∨ calls (get_best_image_with_gemini W image_paths title brand st).2
       = (calls st ++ [CallGemini (valid_paths W (files st) image_paths)])%list)
  ∧ (bytes_truthy (GEMINI_API_KEY W) = false
     ∨ valid_paths W (files st) image_paths = [] →
     get_best_image_with_gemini W image_paths title brand st = (Ret None, st)).
Proof.
  destruct (gemini_run W image_paths title brand st)
    as [r [[E ->] | (E & Hkey & Hvalid & _)]]; rewrite E; simpl.
  - split; [by eexists |]. repeat (split; [done |]). split; [by left | done].
  - split; [by eexists |]. repeat (split; [done |]). split; [by right |].
    intros [H | H]; congruence.
Qed.

(** ** Formatting, further *)

Lemma bind_raise_or_ret {A B} (m : M A) (k : A → M B) st :
  (∃ a st1, m st = (Ret a, st1) ∧ (m ≫= k) st = k a st1)
  ∨ (∃ e st1, m st = (Raise e, st1) ∧ (m ≫= k) st = (Raise e, st1)).
Proof.
  unfold mbind, M_bind, bind. destruct (m st) as [[a|e] st1].
  - left. by exists a, st1.
  - right. by exists e, st1.
Qed.

(** X20. [format_product_data] answers [None] exactly when the lookup data
    has no usable [items]; once the data has items it returns a result or
    raises, never [None]. *)
Theorem format_none_iff_no_items (W : World) (upc : string) (data : json)
    (from_cache : bool) (st : state) :
  (format_product_data W upc data from_cache st).1 = Ret None
  ↔ Py.has_items data = Ret false.
Proof.
  unfold format_product_data.
  unfold mbind at 1, M_bind at 1, bind at 1, lift at 1.
  destruct (Py.has_items data) as [[|]|e]; simpl.
  2, 3: by split.
  split; [| done]. intros H. exfalso. revert H.
  repeat match goal with
  | |- context [(?m ≫= ?k) ?s] =>
      destruct (bind_raise_or_ret m k s) as [(? & ? & _ & ->) | (? & ? & _ & ->)];
      [| done]
  | |- context [let '(_, _) := ?a in _] => destruct a
  end.
  done.
Qed.

(** X21. A result of [format_product_data] is a dictionary with exactly the
    seven fields upc, title, brand, description, images, best_image and
    cached, in this order, where upc is the key asked for and cached is the
    [from_cache] argument. *)
Theorem format_result_shape (W : World) (upc : string) (data : json)
    (from_cache : bool) (st : state) (f : json) (st' : state) :
  format_product_data W upc data from_cache st = (Ret (Some f), st') →
  ∃ kvs, f = JObj kvs
         ∧ map fst kvs = result_keys
         ∧ Py.dict_lookup "upc" kvs = Some (JStr upc)
         ∧ Py.dict_lookup "cached" kvs = Some (JBool from_cache).
Proof.
  unfold format_product_data. intros H.
  inv_bind H. destruct (negb a); [done |].
  do 3 inv_bind H. inv_bind H. destruct a3 as [item best].
  do 4 inv_bind H.
  injection H as <- <-. eexists. split; [done |]. done.
Qed.

Lemma format_result_shape_witness :
  format_product_data Demo.W0 "012345" Demo.widget true Demo.empty_state
  = (Ret (Some (JObj [("upc", JStr "012345"); ("title", JStr "Widget");
                      ("brand", JStr "Acme"); ("description", JStr "");
                      ("images", JArr [JStr "http://img.example/a.png";
                                       JStr "http://img.example/broken.png";
                                       JStr "http://img.example/c"]);
                      ("best_image", JNull); ("cached", JBool true)])),
     Demo.empty_state)
  ∧ ∃ kvs, map fst kvs = result_keys
           ∧ Py.dict_lookup "upc" kvs = Some (JStr "012345").
Proof.
  assert (H : format_product_data Demo.W0 "012345" Demo.widget true Demo.empty_state
              = (Ret (Some (JObj [("upc", JStr "012345"); ("title", JStr "Widget");
                      ("brand", JStr "Acme"); ("description", JStr "");
                      ("images", JArr [JStr "http://img.example/a.png";
                                       JStr "http://img.example/broken.png";
                                       JStr "http://img.example/c"]);
                      ("best_image", JNull); ("cached", JBool true)])),
                 Demo.empty_state)).
  { reflexivity. }
  split; [exact H |].
  destruct (format_result_shape _ _ _ _ _ _ _ H) as (kvs & _ & Hk & Hu & _).
  exists kvs. split; [exact Hk | exact Hu].
Defined.

(** X22. With [from_cache] set, [format_product_data] has no effect at all (no
    download, no ranking request, no file written), and the result it
    returns has no best image. *)
Theorem format_from_cache_is_pure (W : World) (upc : string) (data : json)
    (st : state) :
  (format_product_data W upc data true st).2 = st
  ∧ (∀ kvs, (format_product_data W upc data true st).1 = Ret (Some (JObj kvs)) →
            Py.dict_lookup "best_image" kvs = Some JNull).
Proof.
  unfold format_product_data, process_images. simpl negb. simpl andb. cbv iota.
  unfold mbind, M_bind, bind, lift, mret, M_ret, ret.
  destruct (Py.has_items data) as [[|]|e]; simpl; [| done | done].
  destruct (Py.getitem "items" data) as [items|e]; simpl; [| done].
  destruct (Py.index0 items) as [item|e]; simpl; [| done].
  destruct (Py.get "images" (JArr []) item) as [urls|e] eqn:E1; simpl; [| done].
  destruct (Py.get "title" (JStr "") item) as [t|e]; simpl; [| done].
  destruct (Py.get "brand" (JStr "") item) as [b|e]; simpl; [| done].
  destruct (Py.get "description" (JStr "") item) as [d|e]; simpl; [| done].
  split; [done |]. by intros kvs [= <-].
Qed.

(** ** Invariants of the running service *)

Lemma reachable_single_flight_witness :
  reachable (process_upc Demo.W0 "5" Demo.empty_state).2
  ∧ single_flight (process_upc Demo.W0 "5" Demo.empty_state).2.
Proof.
  assert (H : reachable (process_upc Demo.W0 "5" Demo.empty_state).2).
  { apply (reachable_step Demo.empty_state).
    - apply reachable_init.
    - exists Demo.W0. apply step_process_upc. }
  split; [exact H | exact (reachable_single_flight _ H)].
Defined.

Lemma in_flight_valid_step W st st' :
  step_in W st st' →
  in_flight_valid (str_isdigit W) st → in_flight_valid (str_isdigit W) st'.
Proof.
  intros Hstep Hinv. destruct Hstep as [upc st | upc st | file st | upc st Hin].
  - intros k. destruct (get_product_frame W upc st) as [_ ->]. apply Hinv.
  - intros k. unfold process_upc. rewrite invalid_upc_isdigit.
    destruct (str_isdigit W upc) eqn:Hd; simpl negb; cbv iota; [| apply Hinv].
    destruct (bytes_truthy (redis_get (cache_key upc) st)); [apply Hinv |].
    destruct (decide (upc ∈ processing_upcs st)); [apply Hinv |].
    simpl. intros [->%elem_of_singleton | Hk]%elem_of_union; [done | by apply Hinv].
  - intros k. destruct (process_batch_cases W file st)
      as [(name & column & _ & _ & ->)
         | [(name & msg & _ & _ & _ & ->) | (_ & _ & ->)]]; [| apply Hinv ..].
    simpl snd.
    destruct (spawn_all (List.filter (to_process W st)
                           (unique (astype_str column))) st)
      as (_ & _ & _ & _ & ->).
    intros [Hk | Hk]%elem_of_union; [| by apply Hinv].
    apply elem_of_list_to_set, elem_of_list_filter_bool in Hk as [_ Hk].
    by apply to_process_fresh in Hk as [Hd _].
  - intros k. rewrite job_state.
    change (processing_upcs (finish_thread upc (release upc (job_body W upc st).2)))
      with (processing_upcs (release upc (job_body W upc st).2)).
    rewrite release_spec.
    rewrite (preserves_job_body W processing_upcs upc) by done.
    intros [Hk _]. by apply Hinv.
Qed.

(** X24. In every state the service reaches, every key in the in-flight set
    is one that [str.isdigit] accepts: no request puts a key in flight that
    the validation of the single-key endpoints would refuse. *)
Theorem reachable_in_flight_valid (isdigit : string → bool) (st : state) :
  reachable_with isdigit st → in_flight_valid isdigit st.
Proof.
  induction 1 as [fs ds rs | W st st' Hd _ IH Hstep].
  - intros k Hk. by apply elem_of_empty in Hk.
  - intros k Hk. rewrite <- Hd.
    apply (in_flight_valid_step W st st' Hstep); [| done].
    intros k' Hk'. rewrite Hd. by apply IH.
Qed.

Lemma reachable_in_flight_valid_witness :
  reachable_with (str_isdigit Demo.W0)
    (process_batch Demo.W0 (csv_upload "keys.csv" Runs.rows_001_12a_001)
       Demo.empty_state).2
  ∧ in_flight_valid (str_isdigit Demo.W0)
      (process_batch Demo.W0 (csv_upload "keys.csv" Runs.rows_001_12a_001)
         Demo.empty_state).2
  ∧ processing_upcs
      (process_batch Demo.W0 (csv_upload "keys.csv" Runs.rows_001_12a_001)
         Demo.empty_state).2
    = {[ "001" ]}.
Proof.
  assert (H : reachable_with (str_isdigit Demo.W0)
                (process_batch Demo.W0
                   (csv_upload "keys.csv" Runs.rows_001_12a_001)
                   Demo.empty_state).2).
  { apply (reachable_with_step _ Demo.W0 Demo.empty_state).
    - reflexivity.
    - apply reachable_with_init.
    - apply step_process_batch. }
  split; [exact H |].
  split; [exact (reachable_in_flight_valid _ _ H) | by vm_compute].
Defined.

(** ** Lookup client *)

(** X25. The lookup client makes exactly one request. Request errors and
    bodies that are not JSON are turned into [None]; a body that is a
    dictionary is returned as it is, with or without items; a body that is
    null, a boolean or a number makes it raise [TypeError]. *)
Theorem lookup_client_outcomes (W : World) (upc : string) (st : state) :
  (get_product_from_upcitemdb W upc st).2 = record_call (CallLookup upc) st
  ∧ ((get_product_from_upcitemdb W upc st).1 = Ret None
     ↔ upcitemdb W upc = LookupRequestException
       ∨ upcitemdb W upc = LookupJSONDecodeError)
  ∧ (∀ data, (get_product_from_upcitemdb W upc st).1 = Ret (Some data) →
             upcitemdb W upc = LookupBody data)
  ∧ (∀ kvs, upcitemdb W upc = LookupBody (JObj kvs) →
            (get_product_from_upcitemdb W upc st).1 = Ret (Some (JObj kvs)))
  ∧ (∀ data, upcitemdb W upc = LookupBody data →
             data = JNull ∨ (∃ b, data = JBool b) ∨ (∃ n, data = JNum n) →
             (get_product_from_upcitemdb W upc st).1 = Raise TypeError).
Proof.
  split; [apply lookup_state |]. split; [| split; [apply lookup_result |]].
  - unfold get_product_from_upcitemdb, mbind, M_bind, bind. simpl.
    destruct (upcitemdb W upc) as [| |data|msg]; simpl.
    + split; [by left | done].
    + split; [by right | done].
    + split; [| by intros [|]].
      destruct (Py.contains "items" data) as [[|]|e]; simpl; try done.
      unfold lift. by destruct (Py.getitem "items" data).
    + split; [done | by intros [|]].
  - split.
    + intros kvs H. unfold get_product_from_upcitemdb, mbind, M_bind, bind.
      cbn [fst snd modify]. rewrite H. unfold Py.contains, Py.getitem, lift.
      destruct (Py.dict_lookup "items" kvs) as [v|] eqn:E.
      * rewrite bool_decide_eq_true_2 by (by eexists). done.
      * rewrite bool_decide_eq_false_2 by (by intros [? ?]). done.
    + intros data H Hd. unfold get_product_from_upcitemdb, mbind, M_bind, bind.
      simpl. rewrite H.
      by destruct Hd as [-> | [[b ->] | [n ->]]].
Qed.

(** ** An entry with an empty payload *)

(** X26. A cache entry whose payload is empty is seen differently by the
    endpoints: for a valid key that is not in flight, the read path answers
    404 and leaves the entry, a processing request starts a job, and a batch
    counts the key as already known. *)
Theorem empty_payload_endpoints_disagree (W : World) (upc : string) (st : state)
    (ttl : Z) :
  str_isdigit W upc = true →
  redis st !! cache_key upc = Some ("", ttl) →
  upc ∉ processing_upcs st →
  get_product W upc st = (Ret not_found, st)
  ∧ process_upc W upc st = (started upc, spawn upc st)
  ∧ to_process W st upc = false.
Proof.
  intros Hd Hc Hout. split; [| split].
  - unfold get_product, redis_get. by rewrite (isdigit_valid _ Hd), Hc.
  - unfold process_upc, redis_get. rewrite (isdigit_valid _ Hd), Hc. simpl.
    by rewrite decide_False.
  - unfold to_process, redis_exists. by rewrite Hc.
Qed.

Lemma empty_payload_endpoints_disagree_witness :
  (str_isdigit Demo.W0 "1" = true
   ∧ redis Runs.empty_payload !! cache_key "1" = Some ("", 30)
   ∧ "1" ∉ processing_upcs Runs.empty_payload)
  ∧ process_upc Demo.W0 "1" Runs.empty_payload = (started "1", spawn "1" Runs.empty_payload)
  ∧ field "upcs_queued"
      (process_batch Demo.W0 (csv_upload "keys.csv" (Demo.read_column ["1"]))
         Runs.empty_payload).1
    = Some (JNum 0).
Proof.
  assert (Hout : "1" ∉ processing_upcs Runs.empty_payload).
  { apply not_elem_of_empty. }
  split; [split; [reflexivity | split; [reflexivity | exact Hout]] |].
  destruct (empty_payload_endpoints_disagree Demo.W0 "1" Runs.empty_payload 30)
    as (_ & Hstart & _); [reflexivity | reflexivity | exact Hout |].
  split; [exact Hstart |]. vm_compute. reflexivity.
Defined.

(** ** The formatted result and its images *)

Lemma dict_lookup_set k v kvs : Py.dict_lookup k (Py.dict_set k v kvs) = Some v.
Proof.
  induction kvs as [|[k' v'] kvs IH]; simpl.
  - by rewrite String.eqb_refl.
  - destruct (String.eqb k k') eqn:E; simpl; rewrite ?String.eqb_refl, ?E; done.
Qed.

(** what the image part of the formatting hands back *)
Lemma process_images_result W upc item image_urls from_cache st item' best st' :
  process_images W upc item image_urls from_cache st = (Ret (item', best), st') →
  (item' = item ∧ best = JNull)
  ∨ (∃ kvs saved,
       item = JObj kvs
       ∧ item' = JObj (Py.dict_set "images"
                         (JArr (map (λ p, JStr (public_url W p)) saved)) kvs)
       ∧ (best = JNull
          ∨ ∃ p, p ∈ saved ∧ best = JStr (public_url W p))).
Proof.
  unfold process_images.
  destruct (negb from_cache && Py.truthy image_urls).
  2: { intros [= <- <- <-]. by left. }
  intros H. inv_bind H. destruct a as [|p0 ps].
  { injection H as <- <- <-. by left. }
  inv_bind H. destruct item as [| | | | |kvs]; try done.
  injection E0 as <- <-.
  do 2 inv_bind H. inv_bind H. right.
  exists kvs, (p0 :: ps). split; [done |].
  match goal with
  | Eg : get_best_image_with_gemini W _ ?t ?b ?s = (Ret ?r, _) |- _ =>
      destruct (gemini_run W (p0 :: ps) t b s)
        as [r' [[E' ->] | (E' & _ & _ & Hmem)]]; rewrite E' in Eg;
      injection Eg as <- <-
  end.
  - injection H as <- <- <-. split; [done |]. by left.
  - destruct (bytes_truthy r') eqn:Ht; injection H as <- <- <-; split; try done.
    + right. apply bytes_truthy_spec in Ht as (p & -> & _). exists p.
      split; [| done]. specialize (Hmem p eq_refl).
      unfold valid_paths in Hmem.
      by apply elem_of_list_filter_bool in Hmem as [? _].
    + by left.
Qed.

(** X27. In every result of [format_product_data], a best image that is not
    null is one of the image URLs listed in the same result. *)
Theorem best_image_is_listed (W : World) (upc : string) (data : json)
    (from_cache : bool) (st : state) (kvs : list (string * json)) (st' : state)
    (url : string) :
  format_product_data W upc data from_cache st = (Ret (Some (JObj kvs)), st') →
  Py.dict_lookup "best_image" kvs = Some (JStr url) →
  ∃ images : list json,
    Py.dict_lookup "images" kvs = Some (JArr images) ∧ JStr url ∈ images.
Proof.
  unfold format_product_data. intros H.
  inv_bind H. destruct (negb a); [done |].
  do 3 inv_bind H. inv_bind H. destruct a3 as [item best].
  do 4 inv_bind H. injection H as <- <-. simpl.
  intros [= ->].
  apply process_images_result in E3
    as [[_ [=]] | (ikvs & saved & -> & -> & [[=] | (p & Hp & [= ->])])].
  unfold lift in E7. simpl in E7. rewrite dict_lookup_set in E7.
  injection E7 as <- _. eexists. split; [done |].
  apply list_elem_of_fmap. by exists p.
Qed.

Lemma best_image_is_listed_witness :
  (∃ kvs st',
     format_product_data Demo.W0 "012345" Demo.widget false Demo.empty_state
     = (Ret (Some (JObj kvs)), st')
     ∧ Py.dict_lookup "best_image" kvs
       = Some (JStr "http://localhost:5000/static/upc_images/012345/012345_3.jpg"))
  ∧ ∃ images : list json,
      JStr "http://localhost:5000/static/upc_images/012345/012345_3.jpg" ∈ images.
Proof.
  assert (H : ∃ kvs st',
     format_product_data Demo.W0 "012345" Demo.widget false Demo.empty_state
     = (Ret (Some (JObj kvs)), st')
     ∧ Py.dict_lookup "best_image" kvs
       = Some (JStr "http://localhost:5000/static/upc_images/012345/012345_3.jpg")).
  { eexists _, _. split; vm_compute; reflexivity. }
  split; [exact H |].
  destruct H as (kvs & st' & Hrun & Hbest).
  destruct (best_image_is_listed _ _ _ _ _ _ _ _ Hrun Hbest) as (images & _ & Hin).
  exists images. exact Hin.
Defined.

(** X28. An item without images is formatted without any effect: no download
    and no ranking request; the result takes title, brand and description
    from the first item, with the empty string for a missing one, an empty
    image list and no best image. *)
Theorem format_without_images (W : World) (upc : string)
    (dkvs ikvs : list (string * json)) (others : list json) (from_cache : bool)
    (st : state) :
  Py.dict_lookup "items" dkvs = Some (JArr (JObj ikvs :: others)) →
  Py.dict_lookup "images" ikvs = None →
  format_product_data W upc (JObj dkvs) from_cache st
  = (Ret (Some (JObj [("upc", JStr upc);
                      ("title", default (JStr "") (Py.dict_lookup "title" ikvs));
                      ("brand", default (JStr "") (Py.dict_lookup "brand" ikvs));
                      ("description",
                       default (JStr "") (Py.dict_lookup "description" ikvs));
                      ("images", JArr []);
                      ("best_image", JNull);
                      ("cached", JBool from_cache)])),
     st).
Proof.
  intros Hitems Himages. unfold format_product_data, Py.has_items.
  assert (Ht : Py.truthy (JObj dkvs) = true).
  { destruct dkvs; [done | done]. }
  rewrite Ht. unfold Py.contains, Py.getitem. rewrite Hitems.
  rewrite bool_decide_eq_true_2 by (by eexists).
  unfold mbind, M_bind, bind, lift, mret, M_ret, ret. simpl.
  rewrite Himages. simpl.
  unfold process_images. simpl Py.truthy. rewrite andb_false_r. simpl.
  by rewrite Himages.
Qed.

Lemma format_without_images_witness :
  (Py.dict_lookup "items" [("items", JArr [JObj [("title", JStr "Pen")]])]
   = Some (JArr [JObj [("title", JStr "Pen")]])
   ∧ Py.dict_lookup "images" [("title", JStr "Pen")] = None)
  ∧ format_product_data Demo.W0 "77" (JObj [("items", JArr [JObj [("title", JStr "Pen")]])])
      false Demo.empty_state
    = (Ret (Some (JObj [("upc", JStr "77"); ("title", JStr "Pen");
                        ("brand", JStr ""); ("description", JStr "");
                        ("images", JArr []); ("best_image", JNull);
                        ("cached", JBool false)])),
       Demo.empty_state).
Proof.
  split; [split; reflexivity |].
  apply (format_without_images Demo.W0 "77" [("items", JArr [JObj [("title", JStr "Pen")]])]
           [("title", JStr "Pen")] [] false Demo.empty_state); reflexivity.
Defined.
